(** * ddns-updater: the provider adapters for Namecheap and DigitalOcean

    A shallow embedding of the two provider packages
    ([internal/settings/providers/namecheap] and
    [internal/settings/providers/digitalocean]) together with the properties
    of their [New], accessor, [getRecordID] and [Update] functions.

    The Go standard library and the helper packages of the repository the
    two providers import ([utils], [headers], [regex], [errors],
    [ipversion], [constants]) are not part of the two packages.  What the
    providers need from them is either a parameter of the development (the
    classes [Env] and [Codec]: parsers, printers and decoders) or modelled
    by a small definition whose doc comment says so.

    A call of [Update] is a computation over the list of HTTP exchanges
    performed so far, so that which requests are sent, and in which order,
    can be stated.  The presentation methods [String] and [HTML] take no
    part in an update and are left out. *)

From Stdlib Require Import ZArith String List Bool Lia Strings.Byte DecimalString.
From stdpp Require Import base gmap strings list.

Local Open Scope string_scope.
Local Open Scope Z_scope.

(** ** The error taxonomy ([internal/settings/errors]) *)

Module errors.

(** Modelled from the spec: package [errors] is not part of the two
    packages; it declares the closed set of sentinel failure kinds, compared
    by identity.  These are the ones the two providers refer to, under the
    names the source gives them. *)
Inductive sentinel : Set :=
| ErrIPv6NotSupported
| ErrMalformedPassword
| ErrEmptyToken
| ErrBadHTTPStatus
| ErrUnmarshalResponse
| ErrUnsuccessfulResponse
| ErrIPReceivedMalformed
| ErrIPReceivedMismatch
| ErrNotFound
| ErrDomainIDNotFound
| ErrGetRecordID
| ErrRequestEncode.

#[global] Instance sentinel_eq_dec : EqDecision sentinel.
Proof. solve_decision. Defined.

(** A Go [error] value as the providers build it.  One constructor per
    shape of construction found in the source:
    - [Sentinel s]            the bare sentinel, [return errors.ErrX];
    - [Wrap s detail]         [fmt.Errorf("%w: %s", s, detail)];
    - [WrapStatus s code b]   [fmt.Errorf("%w: %d: %s", s, code, b)];
    - [Prefixed p e]          [fmt.Errorf("%s: %w", p, e)]: only [e] is
                              wrapped, [p] contributes its text;
    - [Errorf format args]    [fmt.Errorf(format, args...)] with no [%w];
    - [Foreign msg]           an error made outside the providers
                              (net/http, encoding/json), passed on as is. *)
Inductive error : Set :=
| Sentinel (s : sentinel)
| Wrap (s : sentinel) (detail : string)
| WrapStatus (s : sentinel) (code : Z) (body : string)
| Prefixed (p : sentinel) (e : error)
| Errorf (format : string) (args : list string)
| Foreign (msg : string).

(** [errors.Is err target] for a sentinel target: follows the [%w] chain. *)
Fixpoint Is (err : error) (target : sentinel) : bool :=
  match err with
  | Sentinel s => bool_decide (s = target)
  | Wrap s _ => bool_decide (s = target)
  | WrapStatus s _ _ => bool_decide (s = target)
  | Prefixed _ e => Is e target
  | Errorf _ _ => false
  | Foreign _ => false
  end.

End errors.
Import errors.

(** ** [net.IP] *)

Module net.

(** [net.IP] is a byte slice; [None] is the nil slice. *)
Definition IP : Set := option (list byte).

Definition bytes (ip : IP) : list byte :=
  match ip with
  | None => []
  | Some b => b
  end.

Definition len (ip : IP) : nat := length (bytes ip).

Definition IPv4len : nat := 4.
Definition IPv6len : nat := 16.

Definition v4InV6Prefix : list byte :=
  [x00; x00; x00; x00; x00; x00; x00; x00; x00; x00; xff; xff].

#[global] Instance byte_eq_dec : EqDecision byte := Byte.byte_eq_dec.

Definition bytealg_Equal (a b : list byte) : bool := bool_decide (a = b).

(** [func (ip IP) Equal(x IP) bool]: equal slices, or an IPv4 address and
    its IPv4-in-IPv6 form. *)
Definition Equal (ip x : IP) : bool :=
  if (len ip =? len x)%nat then bytealg_Equal (bytes ip) (bytes x)
  else if (len ip =? IPv4len)%nat && (len x =? IPv6len)%nat then
    bytealg_Equal (firstn 12 (bytes x)) v4InV6Prefix
    && bytealg_Equal (bytes ip) (skipn 12 (bytes x))
  else if (len ip =? IPv6len)%nat && (len x =? IPv4len)%nat then
    bytealg_Equal (firstn 12 (bytes ip)) v4InV6Prefix
    && bytealg_Equal (skipn 12 (bytes ip)) (bytes x)
  else false.

Definition isZeros (p : list byte) : bool :=
  forallb (fun b => bool_decide (b = x00)) p.

(** [func (ip IP) To4() IP]. *)
Definition To4 (ip : IP) : IP :=
  if (len ip =? IPv4len)%nat then ip
  else if (len ip =? IPv6len)%nat
          && isZeros (firstn 10 (bytes ip))
          && bool_decide (nth 10 (bytes ip) x00 = xff)
          && bool_decide (nth 11 (bytes ip) x00 = xff)
  then Some (firstn 4 (skipn 12 (bytes ip)))
  else None.

(** [ip == nil] / [ip != nil]. *)
Definition is_nil (ip : IP) : bool :=
  match ip with
  | None => true
  | Some _ => false
  end.

End net.

(** ** [ipversion], [constants], [regex] *)

Module ipversion.
(** Modelled from the spec: the declaration of [ipversion.IPVersion] is
    not part of the two packages; the record target's IP version is an
    enumeration of V4 and V6, of which the source names [IP6]. *)
Inductive IPVersion : Set := IP4 | IP6.

#[global] Instance IPVersion_eq_dec : EqDecision IPVersion.
Proof. solve_decision. Defined.
End ipversion.

Module constants.
(** Modelled from the spec: the declarations of [constants.A] and
    [constants.AAAA] are not part of the two packages; they name the DNS
    record types A and AAAA. *)
Definition A : string := "A".
Definition AAAA : string := "AAAA".
End constants.

Module regex.
(** Modelled from the spec: the declaration of the interface
    [regex.Matcher] is not part of the two packages; the Namecheap provider
    calls its method [NamecheapPassword], the shape check of the password. *)
Record Matcher : Type := { NamecheapPassword : string -> bool }.
End regex.

(** ** [net/url] and [net/http] *)

Module url.

(** [url.Values] is a [map[string][]string]; [Set] replaces the values of
    a key by the single given one. *)
Abbreviation Values := (gmap string (list string)).

Definition Set_ (key value : string) (v : Values) : Values :=
  <[key := [value]]> v.

(** [url.URL].  [RawQuery] always holds [values.Encode()] in the source;
    the encoding is kept symbolic, as the [Values] it encodes. *)
Record URL : Type := {
  Scheme : string;
  Host : string;
  Path : string;
  RawQuery : Values
}.

End url.

Module http.

Definition MethodGet : string := "GET".
Definition MethodPut : string := "PUT".
Definition StatusOK : Z := 200.

(** The [context.Context] handed to [http.NewRequestWithContext]. *)
Inductive Context : Set := nilContext | Background | Canceled.

(** [http.Request]: what the providers set of it. *)
Record Request : Type := {
  Ctx : Context;
  Method : string;
  URL : url.URL;
  Header : gmap string (list string);
  Body : option string
}.

(** [http.Response]: what the providers read of it. *)
Record Response : Type := {
  StatusCode : Z;
  RespBody : string
}.

(** One call of [client.Do]: the request sent and what came back, a
    response or a transport error (its message). *)
Definition Exchange : Type := Request * result Response string.

(** The injected [*http.Client].  Its answer may depend on the requests
    it has served so far. *)
Definition Client : Type := list Exchange -> Request -> result Response string.

(** [http.NewRequestWithContext(ctx, method, u.String(), body)].  The URL
    text comes from [url.URL.String], which escapes the path and the
    query, so that the one failure left to the call is a nil context. *)
Definition NewRequestWithContext (ctx : Context) (method : string)
    (u : url.URL) (body : option string) : result Request error :=
  match ctx with
  | nilContext => Error (Foreign "net/http: nil Context")
  | _ => Ok {| Ctx := ctx; Method := method; URL := u;
               Header := ∅; Body := body |}
  end.

(** [request.Header.Set(key, value)]. *)
Definition Header_Set (key value : string) (r : Request) : Request :=
  {| Ctx := Ctx r; Method := Method r; URL := URL r;
     Header := <[key := [value]]> (Header r); Body := Body r |}.

End http.

(** ** Computations that talk to the network

    [Update] and [getRecordID] return a value or an error and perform calls
    of [client.Do] on the way.  A computation threads the list of exchanges
    performed so far. *)

Definition M (A : Type) : Type :=
  list http.Exchange -> result A error * list http.Exchange.

Definition ret {A} (a : A) : M A := fun tr => (Ok a, tr).

Definition fail {A} (e : error) : M A := fun tr => (Error e, tr).

Definition bind {A B} (m : M A) (k : A -> M B) : M B :=
  fun tr =>
    match m tr with
    | (Ok a, tr') => k a tr'
    | (Error e, tr') => (Error e, tr')
    end.

(** A pure step that may fail: [x, err := f(); if err != nil { return nil, err }]. *)
Definition lift {A} (r : result A error) : M A := fun tr => (r, tr).

(** [response, err := client.Do(request); if err != nil { return nil, err }]. *)
Definition Do (client : http.Client) (request : http.Request) : M http.Response :=
  fun tr =>
    let r := client tr request in
    (match r with
     | Ok response => Ok response
     | Error msg => Error (Foreign msg)
     end, (tr ++ [(request, r)])%list).

Notation "'let*' x ':=' m 'in' k" := (bind m (fun x => k))
  (at level 10, x name, m at level 200, k at level 200,
   format "'[v' 'let*'  x  :=  m  'in' '/' k ']'").

(** Runs [m] and, when it fails, replaces its error [err] by [f err]:
    [x, err := m(); if err != nil { return nil, f(err) }]. *)
Definition onError {A} (f : error -> error) (m : M A) : M A :=
  fun tr =>
    match m tr with
    | (Ok a, tr') => (Ok a, tr')
    | (Error e, tr') => (Error (f e), tr')
    end.

(** A decoder of the standard library reports its failure as a message;
    the providers wrap it: [fmt.Errorf("%w: %s", s, err)]. *)
Definition wrapping {A} (s : sentinel) (r : result A string) : result A error :=
  match r with
  | Ok a => Ok a
  | Error msg => Error (Wrap s msg)
  end.

(** ** What the providers import

    The functions of the Go standard library and of package [utils] that
    both providers call, and the one constant of package [headers] they
    depend on.  Their code is not part of the two packages: they are
    parameters of the development. *)

Class Env : Type := {
  (** [net.ParseIP(s)]: the address, or nil when [s] is not one. *)
  net_ParseIP : string -> net.IP;
  (** [func (ip IP) String() string]. *)
  net_IP_String : net.IP -> string;
  (** [utils.BuildDomainName(host, domain)]. *)
  utils_BuildDomainName : string -> string -> string;
  (** [utils.BodyToSingleLine(response.Body)]. *)
  utils_BodyToSingleLine : string -> string;
  (** The value package [headers] gives to the [User-Agent] header. *)
  headers_userAgent : string
}.

(** The environment [E] with [parse] in the place of [net.ParseIP]. *)
Definition with_ParseIP {E : Env} (parse : string -> net.IP) : Env := {|
  net_ParseIP := parse;
  net_IP_String := net_IP_String;
  utils_BuildDomainName := utils_BuildDomainName;
  utils_BodyToSingleLine := utils_BodyToSingleLine;
  headers_userAgent := headers_userAgent
|}.

(** [fmt]'s [%d] verb for a Go [int]. *)
Definition fmt_d (n : Z) : string := NilZero.string_of_int (Z.to_int n).

Module headers.
Section headers.
Context {E : Env}.

(** Modelled from the spec: package [headers] is not part of the two
    packages; its helpers decorate an outbound request with the standard
    headers: user agent, accept, content type and bearer authorization. *)
Definition SetUserAgent (request : http.Request) : http.Request :=
  http.Header_Set "User-Agent" headers_userAgent request.

(** Modelled from the spec: sets the [Accept] header (see [SetUserAgent]). *)
Definition SetAccept (request : http.Request) (accept : string) : http.Request :=
  http.Header_Set "Accept" accept request.

(** Modelled from the spec: sets the [Content-Type] header (see
    [SetUserAgent]). *)
Definition SetContentType (request : http.Request) (contentType : string)
    : http.Request :=
  http.Header_Set "Content-Type" contentType request.

(** Modelled from the spec: sets bearer authorization (see [SetUserAgent]). *)
Definition SetAuthBearer (request : http.Request) (token : string) : http.Request :=
  http.Header_Set "Authorization" ("Bearer " ++ token) request.

End headers.
End headers.

(** ** Package [namecheap]: the single-call adapter *)

Module namecheap.


(** [type namecheap struct]. *)
Record namecheap : Type := {
  domain : string;
  host : string;
  ipVersion : ipversion.IPVersion;
  password : string;
  useProviderIP : bool;
  matcher : regex.Matcher
}.

(** The anonymous struct [extraSettings] of [New]. *)
Record extraSettings : Set := {
  Password : string;
  UseProviderIP : bool
}.

(** The anonymous struct [parsedXML] of [Update]: [Errors_Error] is the
    field [Errors.Error] (element [errors.Err1] inside [errors]). *)
Record parsedXML : Set := {
  Errors_Error : string;
  IP : string
}.

(** The two decoders the package runs, at the types it runs them. *)
Class Codec : Type := {
  (** [json.Unmarshal(data, &extraSettings)]. *)
  json_Unmarshal : string -> result extraSettings string;
  (** [xml.NewDecoder(response.Body).Decode(&parsedXML)]. *)
  xml_Decode : string -> result parsedXML string
}.

Section namecheap.
Context {E : Env} {C : Codec}.

(** [func (n *namecheap) isValid() error]; [None] is the nil error. *)
Definition isValid (n : namecheap) : option error :=
  if negb (regex.NamecheapPassword (matcher n) (password n))
  then Some (Sentinel ErrMalformedPassword)
  else None.

(** [func New(data, domain, host, ipVersion, matcher) (n *namecheap, err error)]. *)
Definition New (data : string) (domain host : string) (ipVersion : ipversion.IPVersion)
    (matcher : regex.Matcher) : result namecheap error :=
  if bool_decide (ipVersion = ipversion.IP6) then Error (Sentinel ErrIPv6NotSupported)
  else
    match json_Unmarshal data with
    | Error msg => Error (Foreign msg)
    | Ok extraSettings =>
        let n := {| domain := domain;
                    host := host;
                    ipVersion := ipVersion;
                    password := Password extraSettings;
                    useProviderIP := UseProviderIP extraSettings;
                    matcher := matcher |} in
        match isValid n with
        | Some err => Error err
        | None => Ok n
        end
    end.

Definition Domain (n : namecheap) : string := domain n.

Definition Host (n : namecheap) : string := host n.

Definition IPVersion (n : namecheap) : ipversion.IPVersion := ipVersion n.

Definition Proxied (n : namecheap) : bool := false.

Definition BuildDomainName (n : namecheap) : string :=
  utils_BuildDomainName (host n) (domain n).

(** [func (n *namecheap) setHeaders(request *http.Request)]. *)
Definition setHeaders (n : namecheap) (request : http.Request) : http.Request :=
  let request := headers.SetUserAgent request in
  headers.SetAccept request "application/xml".

(** [func (n *namecheap) Update(ctx, client, ip) (newIP net.IP, err error)]. *)
Definition Update (n : namecheap) (ctx : http.Context) (client : http.Client)
    (ip : net.IP) : M net.IP :=
  let values : url.Values := ∅ in
  let values := url.Set_ "host" (host n) values in
  let values := url.Set_ "domain" (domain n) values in
  let values := url.Set_ "password" (password n) values in
  let values :=
    if negb (useProviderIP n) then url.Set_ "ip" (net_IP_String ip) values
    else values in
  let u := {| url.Scheme := "https";
              url.Host := "dynamicdns.park-your-domain.com";
              url.Path := "/update";
              url.RawQuery := values |} in
  let* request := lift (http.NewRequestWithContext ctx http.MethodGet u None) in
  let request := setHeaders n request in
  let* response := Do client request in
  if negb (http.StatusCode response =? http.StatusOK) then
    fail (WrapStatus ErrBadHTTPStatus (http.StatusCode response)
            (utils_BodyToSingleLine (http.RespBody response)))
  else
    let* parsedXML := lift (wrapping ErrUnmarshalResponse
                         (xml_Decode (http.RespBody response))) in
    if negb (String.eqb (Errors_Error parsedXML) "") then
      fail (Wrap ErrUnsuccessfulResponse (Errors_Error parsedXML))
    else
      let newIP := net_ParseIP (IP parsedXML) in
      if net.is_nil newIP then
        fail (Wrap ErrIPReceivedMalformed (IP parsedXML))
      else if negb (net.is_nil ip) && negb (net.Equal ip newIP) then
        fail (Wrap ErrIPReceivedMismatch (net_IP_String newIP))
      else ret newIP.

End namecheap.
End namecheap.

(** ** Package [digitalocean]: the lookup-then-mutate adapter *)

Module digitalocean.


(** [type digitalOcean struct]. *)
Record digitalOcean : Type := {
  domain : string;
  host : string;
  ipVersion : ipversion.IPVersion;
  token : string
}.

(** The anonymous struct [extraSettings] of [New]. *)
Record extraSettings : Set := { Token : string }.

(** An element of [result.DomainRecords] in [getRecordID]; [ID] is a Go
    [int]. *)
Record domainRecord : Set := { ID : Z }.

(** The anonymous struct [result] of [getRecordID]. *)
Record lookupResult : Set := { DomainRecords : list domainRecord }.

(** The anonymous struct [requestData] of [Update]. *)
Record requestData : Set := {
  Type_ : string;
  Name : string;
  Data : string
}.

(** The anonymous struct [responseData] of [Update]: [DomainRecord_Data]
    is the field [DomainRecord.Data]. *)
Record responseData : Set := { DomainRecord_Data : string }.

(** The JSON coders the package runs, at the types it runs them. *)
Class Codec : Type := {
  (** [json.Unmarshal(data, &extraSettings)]. *)
  json_Unmarshal : string -> result extraSettings string;
  (** [json.NewDecoder(response.Body).Decode(&result)]. *)
  json_Decode_result : string -> result lookupResult string;
  (** [json.NewEncoder(buffer).Encode(requestData)]: the bytes written to
      [buffer]. *)
  json_Encode : requestData -> result string string;
  (** [json.NewDecoder(response.Body).Decode(&responseData)]. *)
  json_Decode_responseData : string -> result responseData string
}.

Section digitalocean.
Context {E : Env} {C : Codec}.

(** [func (d *digitalOcean) isValid() error]; [None] is the nil error. *)
Definition isValid (d : digitalOcean) : option error :=
  if (String.length (token d) =? 0)%nat then Some (Sentinel ErrEmptyToken)
  else None.

(** [func New(data, domain, host, ipVersion) (d *digitalOcean, err error)]. *)
Definition New (data : string) (domain host : string) (ipVersion : ipversion.IPVersion)
    : result digitalOcean error :=
  match json_Unmarshal data with
  | Error msg => Error (Foreign msg)
  | Ok extraSettings =>
      let d := {| domain := domain;
                  host := host;
                  ipVersion := ipVersion;
                  token := Token extraSettings |} in
      match isValid d with
      | Some err => Error err
      | None => Ok d
      end
  end.

Definition Domain (d : digitalOcean) : string := domain d.

Definition Host (d : digitalOcean) : string := host d.

Definition IPVersion (d : digitalOcean) : ipversion.IPVersion := ipVersion d.

Definition Proxied (d : digitalOcean) : bool := false.

Definition BuildDomainName (d : digitalOcean) : string :=
  utils_BuildDomainName (host d) (domain d).

(** [func (d *digitalOcean) setHeaders(request *http.Request)]. *)
Definition setHeaders (d : digitalOcean) (request : http.Request) : http.Request :=
  let request := headers.SetUserAgent request in
  let request := headers.SetContentType request "application/json" in
  let request := headers.SetAccept request "application/json" in
  headers.SetAuthBearer request (token d).

(** [func (d *digitalOcean) getRecordID(ctx, recordType, client) (recordID int, err error)]. *)
Definition getRecordID (d : digitalOcean) (ctx : http.Context)
    (recordType : string) (client : http.Client) : M Z :=
  let values : url.Values := ∅ in
  let values := url.Set_ "name" (BuildDomainName d) values in
  let values := url.Set_ "type" recordType values in
  let u := {| url.Scheme := "https";
              url.Host := "api.digitalocean.com";
              url.Path := "/v2/domains/" ++ domain d ++ "/records";
              url.RawQuery := values |} in
  let* request := lift (http.NewRequestWithContext ctx http.MethodGet u None) in
  let request := setHeaders d request in
  let* response := Do client request in
  if negb (http.StatusCode response =? http.StatusOK) then
    fail (WrapStatus ErrBadHTTPStatus (http.StatusCode response)
            (utils_BodyToSingleLine (http.RespBody response)))
  else
    let* result := lift (wrapping ErrUnmarshalResponse
                           (json_Decode_result (http.RespBody response))) in
    match DomainRecords result with
    | [] => fail (Sentinel ErrNotFound)
    | first :: _ =>
        if ID first =? 0 then fail (Sentinel ErrDomainIDNotFound)
        else ret (ID first)
    end.

(** [func (d *digitalOcean) Update(ctx, client, ip) (newIP net.IP, err error)]. *)
Definition Update (d : digitalOcean) (ctx : http.Context) (client : http.Client)
    (ip : net.IP) : M net.IP :=
  let recordType :=
    if net.is_nil (net.To4 ip) then constants.AAAA else constants.A in
  let* recordID := onError (Prefixed ErrGetRecordID)
                     (getRecordID d ctx recordType client) in
  let u := {| url.Scheme := "https";
              url.Host := "api.digitalocean.com";
              url.Path := "/v2/domains/" ++ domain d ++ "/records/"
                          ++ fmt_d recordID;
              url.RawQuery := ∅ |} in
  let requestData := {| Type_ := recordType;
                        Name := host d;
                        Data := net_IP_String ip |} in
  let* buffer := lift (wrapping ErrRequestEncode (json_Encode requestData)) in
  let* request := lift (http.NewRequestWithContext ctx http.MethodPut u
                          (Some buffer)) in
  let request := setHeaders d request in
  let* response := Do client request in
  if negb (http.StatusCode response =? http.StatusOK) then
    fail (WrapStatus ErrBadHTTPStatus (http.StatusCode response)
            (utils_BodyToSingleLine (http.RespBody response)))
  else
    let* responseData := lift (wrapping ErrUnmarshalResponse
                                 (json_Decode_responseData
                                    (http.RespBody response))) in
    let newIP := net_ParseIP (DomainRecord_Data responseData) in
    if net.is_nil newIP then
      fail (Errorf "IP address received %q is malformed"
              [DomainRecord_Data responseData])
    else if negb (net.Equal newIP ip) then
      fail (Errorf "updated IP address %s is not the IP address %s sent for update"
              [net_IP_String newIP; net_IP_String ip])
    else ret newIP.

End digitalocean.
End digitalocean.

(** ** Observing a computation *)

(** [performs m tr new]: run after the exchanges [tr], the computation [m]
    performs exactly the exchanges [new], in that order. *)
Definition performs {A} (m : M A) (tr new : list http.Exchange) : Prop :=
  snd (m tr) = (tr ++ new)%list.

(** What [m] returns when run after the exchanges [tr]. *)
Definition outcome {A} (m : M A) (tr : list http.Exchange) : result A error :=
  fst (m tr).

(** The last exchange [m] performs after [tr] is answered by [resp]. *)
Definition last_answer {A} (m : M A) (tr : list http.Exchange)
    (resp : http.Response) : Prop :=
  exists pre req, performs m tr (pre ++ [(req, Ok resp)])%list.

(** The error at the end of the [%w] chain of [e]. *)
Fixpoint cause (e : error) : error :=
  match e with
  | Prefixed _ e' => cause e'
  | _ => e
  end.

(** [m] fails with the bad-status error made from the response [resp]:
    an error that is [ErrBadHTTPStatus] for [errors.Is] and carries the
    status code of [resp] and the one-line snapshot of its body. *)
Definition bad_status_failure {E : Env} {A} (m : M A) (tr : list http.Exchange)
    (resp : http.Response) : Prop :=
  exists e,
    outcome m tr = Error e
    /\ Is e ErrBadHTTPStatus = true
    /\ cause e = WrapStatus ErrBadHTTPStatus (http.StatusCode resp)
                   (utils_BodyToSingleLine (http.RespBody resp)).

(** [m] fails on a bad status exactly when the answer to its last
    exchange has a status other than 200: an answer with another status
    makes [m] fail with the bad-status error made from it, an answer with
    status 200 does not, and no bad-status error comes from elsewhere. *)
Definition fails_on_bad_status {E : Env} {A} (m : M A) (tr : list http.Exchange)
    : Prop :=
  (forall resp,
      last_answer m tr resp ->
      (bad_status_failure m tr resp <-> http.StatusCode resp <> http.StatusOK))
  /\ (forall e,
        outcome m tr = Error e ->
        Is e ErrBadHTTPStatus = true ->
        exists resp,
          last_answer m tr resp /\ http.StatusCode resp <> http.StatusOK).

(** ** A concrete environment

    An instance of every parameter, on which the functions above run to a
    value: a table of the addresses of the documentation ranges for
    [net.ParseIP], dotted decimal for [IP.String], and decoders that know
    the bodies of the vendor stubs below. *)

Module fixture.

Definition IPv4 (a b c d : byte) : net.IP :=
  Some (net.v4InV6Prefix ++ [a; b; c; d])%list.

Definition ip_203_0_113_5 : net.IP := IPv4 xcb x00 x71 x05.
Definition ip_198_51_100_9 : net.IP := IPv4 xc6 x33 x64 x09.
Definition ip_198_51_100_1 : net.IP := IPv4 xc6 x33 x64 x01.

Definition ParseIP (s : string) : net.IP :=
  if String.eqb s "203.0.113.5" then ip_203_0_113_5
  else if String.eqb s "198.51.100.9" then ip_198_51_100_9
  else if String.eqb s "198.51.100.1" then ip_198_51_100_1
  else None.

Definition octet (b : byte) : string :=
  NilZero.string_of_uint (N.to_uint (Byte.to_N b)).

Definition IP_String (ip : net.IP) : string :=
  match net.To4 ip with
  | Some [a; b; c; d] => octet a ++ "." ++ octet b ++ "." ++ octet c ++ "." ++ octet d
  | _ => if (net.len ip =? 0)%nat then "<nil>" else "?"
  end.

Definition BuildDomainName (host domain : string) : string :=
  if String.eqb host "@" then domain
  else if String.eqb host "*" then "any." ++ domain
  else host ++ "." ++ domain.

Fixpoint BodyToSingleLine (s : string) : string :=
  match s with
  | EmptyString => EmptyString
  | String c rest =>
      if (Ascii.eqb c (Ascii.ascii_of_nat 10)
          || Ascii.eqb c (Ascii.ascii_of_nat 13))%bool then BodyToSingleLine rest
      else String c (BodyToSingleLine rest)
  end.

#[export] Instance env : Env := {|
  net_ParseIP := ParseIP;
  net_IP_String := IP_String;
  utils_BuildDomainName := BuildDomainName;
  utils_BodyToSingleLine := BodyToSingleLine;
  headers_userAgent := "DDNS-Updater"
|}.

(** The double quote, and a JSON string literal. *)
Definition dq : string := String (Ascii.ascii_of_nat 34) EmptyString.
Definition js (s : string) : string := dq ++ s ++ dq.

(** *** Namecheap *)

Definition namecheap_config : string :=
  "{" ++ js "password" ++ ":" ++ js "Aa1-aaaaaaaaaaaaaaaa" ++ "}".

Definition namecheap_config_provider_ip : string :=
  "{" ++ js "password" ++ ":" ++ js "Aa1-aaaaaaaaaaaaaaaa" ++ ","
      ++ js "provider_ip" ++ ":true}".

Definition namecheap_config_short : string :=
  "{" ++ js "password" ++ ":" ++ js "short" ++ "}".

Definition xml_ok (ip : string) : string :=
  "<interface-response><IP>" ++ ip ++ "</IP></interface-response>".

Definition xml_err (ip msg : string) : string :=
  "<interface-response><IP>" ++ ip ++ "</IP><errors><errors.Err1>" ++ msg
    ++ "</errors.Err1></errors></interface-response>".

#[export] Instance namecheap_codec : namecheap.Codec := {|
  namecheap.json_Unmarshal data :=
    if String.eqb data namecheap_config then
      Ok {| namecheap.Password := "Aa1-aaaaaaaaaaaaaaaa";
            namecheap.UseProviderIP := false |}
    else if String.eqb data namecheap_config_provider_ip then
      Ok {| namecheap.Password := "Aa1-aaaaaaaaaaaaaaaa";
            namecheap.UseProviderIP := true |}
    else if String.eqb data namecheap_config_short then
      Ok {| namecheap.Password := "short"; namecheap.UseProviderIP := false |}
    else Error "invalid character";
  namecheap.xml_Decode body :=
    if String.eqb body (xml_ok "203.0.113.5") then
      Ok {| namecheap.Errors_Error := ""; namecheap.IP := "203.0.113.5" |}
    else if String.eqb body (xml_ok "198.51.100.1") then
      Ok {| namecheap.Errors_Error := ""; namecheap.IP := "198.51.100.1" |}
    else if String.eqb body (xml_err "198.51.100.1" "Domain name not found") then
      Ok {| namecheap.Errors_Error := "Domain name not found";
            namecheap.IP := "198.51.100.1" |}
    else Error "EOF"
|}.

(** A matcher that accepts the passwords of twenty characters. *)
Definition matcher : regex.Matcher :=
  {| regex.NamecheapPassword s := (String.length s =? 20)%nat |}.

(** The adapters of the scenario: example.com, host www. *)
Definition namecheap_www (useProviderIP : bool) : namecheap.namecheap :=
  {| namecheap.domain := "example.com";
     namecheap.host := "www";
     namecheap.ipVersion := ipversion.IP4;
     namecheap.password := "Aa1-aaaaaaaaaaaaaaaa";
     namecheap.useProviderIP := useProviderIP;
     namecheap.matcher := matcher |}.

(** A vendor stub that answers every request with the given status and
    body. *)
Definition always (status : Z) (body : string) : http.Client :=
  fun _ _ => Ok {| http.StatusCode := status; http.RespBody := body |}.

(** *** DigitalOcean *)

Definition digitalocean_config : string :=
  "{" ++ js "token" ++ ":" ++ js "tok123" ++ "}".

Definition digitalocean_config_empty : string :=
  "{" ++ js "token" ++ ":" ++ js "" ++ "}".

Definition records_body (ids : string) : string :=
  "{" ++ js "domain_records" ++ ":[" ++ ids ++ "]}".

Definition id_42 : string := "{" ++ js "id" ++ ":42}".
Definition id_0 : string := "{" ++ js "id" ++ ":0}".

Definition record_body (data : string) : string :=
  "{" ++ js "domain_record" ++ ":{" ++ js "data" ++ ":" ++ js data ++ "}}".

#[export] Instance digitalocean_codec : digitalocean.Codec := {|
  digitalocean.json_Unmarshal data :=
    if String.eqb data digitalocean_config then
      Ok {| digitalocean.Token := "tok123" |}
    else if String.eqb data digitalocean_config_empty then
      Ok {| digitalocean.Token := "" |}
    else Error "invalid character";
  digitalocean.json_Decode_result body :=
    if String.eqb body (records_body id_42) then
      Ok {| digitalocean.DomainRecords := [ {| digitalocean.ID := 42 |} ] |}
    else if String.eqb body (records_body id_0) then
      Ok {| digitalocean.DomainRecords := [ {| digitalocean.ID := 0 |} ] |}
    else if String.eqb body (records_body "") then
      Ok {| digitalocean.DomainRecords := [] |}
    else Error "EOF";
  digitalocean.json_Encode rd :=
    Ok ("{" ++ js "type" ++ ":" ++ js (digitalocean.Type_ rd) ++ ","
            ++ js "name" ++ ":" ++ js (digitalocean.Name rd) ++ ","
            ++ js "data" ++ ":" ++ js (digitalocean.Data rd) ++ "}");
  digitalocean.json_Decode_responseData body :=
    if String.eqb body (record_body "198.51.100.9") then
      Ok {| digitalocean.DomainRecord_Data := "198.51.100.9" |}
    else if String.eqb body (record_body "198.51.100.1") then
      Ok {| digitalocean.DomainRecord_Data := "198.51.100.1" |}
    else Error "EOF"
|}.

(** The adapter of the scenario: example.org, host api. *)
Definition digitalocean_api : digitalocean.digitalOcean :=
  {| digitalocean.domain := "example.org";
     digitalocean.host := "api";
     digitalocean.ipVersion := ipversion.IP4;
     digitalocean.token := "tok123" |}.

(** A vendor stub that answers the lookup (GET) and the mutation (PUT)
    with the given status and body each. *)
Definition vendor (lookup mutation : Z * string) : http.Client :=
  fun _ request =>
    let '(status, body) :=
      if String.eqb (http.Method request) http.MethodGet then lookup
      else mutation in
    Ok {| http.StatusCode := status; http.RespBody := body |}.

End fixture.

(** ** More of the concrete environment

    Vendor stubs and coders for the failures of the transport, of the
    decoders and of the encoder. *)

Module fixture_more.
Import fixture.

(** A client whose transport always fails. *)
Definition unreachable : http.Client :=
  fun _ _ => Error "dial tcp: i/o timeout".

(** A vendor that answers the lookup and is unreachable afterwards. *)
Definition lookup_only (status : Z) (body : string) : http.Client :=
  fun _ request =>
    if String.eqb (http.Method request) http.MethodGet
    then Ok {| http.StatusCode := status; http.RespBody := body |}
    else Error "dial tcp: i/o timeout".

(** The decoders of [fixture], which also know a body whose IP field is
    not an address. *)
Definition namecheap_codec_more : namecheap.Codec := {|
  namecheap.json_Unmarshal := namecheap.json_Unmarshal;
  namecheap.xml_Decode body :=
    if String.eqb body (xml_ok "not-an-ip") then
      Ok {| namecheap.Errors_Error := ""; namecheap.IP := "not-an-ip" |}
    else namecheap.xml_Decode body
|}.

Definition id_7 : string := "{" ++ js "id" ++ ":7}".

(** The coders of [fixture], which also know a list of two records and a
    record whose data is not an address. *)
Definition digitalocean_codec_more : digitalocean.Codec := {|
  digitalocean.json_Unmarshal := digitalocean.json_Unmarshal;
  digitalocean.json_Decode_result body :=
    if String.eqb body (records_body (id_42 ++ "," ++ id_7)) then
      Ok {| digitalocean.DomainRecords :=
              [ {| digitalocean.ID := 42 |}; {| digitalocean.ID := 7 |} ] |}
    else digitalocean.json_Decode_result body;
  digitalocean.json_Encode := digitalocean.json_Encode;
  digitalocean.json_Decode_responseData body :=
    if String.eqb body (record_body "not-an-ip") then
      Ok {| digitalocean.DomainRecord_Data := "not-an-ip" |}
    else digitalocean.json_Decode_responseData body
|}.

(** The coders of [fixture] with an encoder that fails. *)
Definition digitalocean_codec_no_encoder : digitalocean.Codec := {|
  digitalocean.json_Unmarshal := digitalocean.json_Unmarshal;
  digitalocean.json_Decode_result := digitalocean.json_Decode_result;
  digitalocean.json_Encode _ := Error "json: unsupported value";
  digitalocean.json_Decode_responseData :=
    digitalocean.json_Decode_responseData
|}.

(** The address 203.0.113.5 in its 4-byte form. *)
Definition ip4_203_0_113_5 : net.IP := Some [xcb; x00; x71; x05].

End fixture_more.

(** * Properties *)

(** ** Proof support *)

Lemma app_self_inv {A} (tr new : list A) : tr = (tr ++ new)%list -> new = [].
Proof.
  intros E. apply (f_equal length) in E.
  rewrite length_app in E. destruct new; [done | simpl in E; lia].
Qed.

Lemma is_nil_false (ip : net.IP) : net.is_nil ip = false <-> ip <> None.
Proof. destruct ip; simpl; split; intros; congruence. Qed.

Lemma is_nil_true (ip : net.IP) : net.is_nil ip = true <-> ip = None.
Proof. destruct ip; simpl; split; intros; congruence. Qed.

(** [Equal] does not depend on which of the two addresses is the receiver:
    [ip.Equal(newIP)] of the single-call adapter and [newIP.Equal(ip)] of
    the two-step adapter are the same test. *)
Lemma bytealg_Equal_sym (a b : list byte) :
  net.bytealg_Equal a b = net.bytealg_Equal b a.
Proof. unfold net.bytealg_Equal. apply bool_decide_ext. split; congruence. Qed.

Lemma net_Equal_sym (ip x : net.IP) : net.Equal ip x = net.Equal x ip.
Proof.
  unfold net.Equal, net.IPv4len, net.IPv6len.
  destruct (Nat.eqb_spec (net.len ip) (net.len x)) as [Heq|Hne].
  - rewrite Heq, Nat.eqb_refl. apply bytealg_Equal_sym.
  - destruct (Nat.eqb_spec (net.len x) (net.len ip)) as [Heq'|_]; [congruence|].
    destruct (Nat.eqb_spec (net.len ip) 4) as [H4|H4];
      destruct (Nat.eqb_spec (net.len x) 16) as [H16|H16];
      destruct (Nat.eqb_spec (net.len ip) 16) as [H16'|H16'];
      destruct (Nat.eqb_spec (net.len x) 4) as [H4'|H4'];
      simpl; try lia; try reflexivity.
    all: f_equal; apply bytealg_Equal_sym.
Qed.

(** An IPv4 address in its 4-byte form is [Equal] to its 16-byte form. *)
Lemma net_Equal_v4_v6 (a b c d : byte) :
  net.Equal (Some [a; b; c; d]) (Some (net.v4InV6Prefix ++ [a; b; c; d])%list)
  = true.
Proof.
  unfold net.Equal, net.bytealg_Equal; simpl.
  rewrite !bool_decide_eq_true_2; done.
Qed.

(** Unfolds a provider function down to the calls of the client. *)
Ltac run_M :=
  unfold performs, outcome, namecheap.Update, digitalocean.Update,
    digitalocean.getRecordID, bind, lift, Do, fail, ret, onError,
    http.NewRequestWithContext, wrapping in *;
  simpl in *.

(** Compares two descriptions of the exchanges performed after [tr]. *)
Ltac same_trace :=
  repeat match goal with
  | H : ?tr = (?tr ++ _)%list |- _ => apply app_self_inv in H; simplify_eq
  | H : ((?tr ++ _) ++ _)%list = (?tr ++ _)%list |- _ =>
      rewrite <- app_assoc in H
  | H : (?tr ++ _)%list = (?tr ++ _)%list |- _ =>
      apply app_inv_head in H; simpl in H; simplify_eq
  | H : _ :: _ = (_ ++ [_])%list |- _ =>
      apply (f_equal last) in H; rewrite last_snoc in H;
      simpl in H; simplify_eq
  | H : (_ ++ [_])%list = [] |- _ => by apply app_nil in H as [_ ?]
  end.

(** Turns the boolean conditions of the source into propositions. *)
Ltac props :=
  repeat match goal with
  | H : negb _ = true |- _ => apply negb_true_iff in H
  | H : negb _ = false |- _ => apply negb_false_iff in H
  | H : andb _ _ = true |- _ => apply andb_true_iff in H; destruct H
  | H : andb _ _ = false |- _ => apply andb_false_iff in H; destruct H
  | H : Z.eqb _ _ = true |- _ => apply Z.eqb_eq in H
  | H : Z.eqb _ _ = false |- _ => apply Z.eqb_neq in H
  | H : String.eqb _ _ = true |- _ => apply String.eqb_eq in H
  | H : String.eqb _ _ = false |- _ => apply String.eqb_neq in H
  | H : net.is_nil _ = true |- _ => apply is_nil_true in H
  | H : net.is_nil _ = false |- _ => apply is_nil_false in H
  end.

(** Follows every branch of the unfolded function. *)
Ltac branches := repeat (case_match; simpl in *; simplify_eq).

Ltac walk := run_M; branches; same_trace; props; simplify_eq.

(** ** The single-call adapter *)

Section namecheap_properties.
Context {E : Env} {C : namecheap.Codec}.
Import namecheap.

(** C9: with a nil current IP the comparison of the reported with the
    requested address is skipped: when the exchange is answered with status
    200, the body decodes, the in-band error field is empty and the reported
    IP parses, [Update] returns the reported address, whatever
    [useProviderIP] is. *)
Theorem namecheap_nil_ip_skips_comparison
    (n : namecheap) (ctx : http.Context) (client : http.Client)
    (tr : list http.Exchange) (req : http.Request) (resp : http.Response)
    (p : parsedXML) :
  performs (Update n ctx client None) tr [(req, Ok resp)] ->
  http.StatusCode resp = http.StatusOK ->
  xml_Decode (http.RespBody resp) = Ok p ->
  Errors_Error p = "" ->
  net_ParseIP (IP p) <> None ->
  outcome (Update n ctx client None) tr = Ok (net_ParseIP (IP p)).
Proof.
  intros Hex Hst Hdec Herr Hip.
  walk; congruence.
Qed.

(** C6: a populated in-band error field wins over the apparent success:
    with status 200 and a body that decodes, [Update] fails with the
    unsuccessful-response error carrying the vendor's message.  The outcome
    mentions neither the reported IP nor [net.ParseIP]: it is the same
    whatever function stands for [net.ParseIP]. *)
Theorem namecheap_vendor_error_takes_precedence
    (n : namecheap) (ctx : http.Context) (client : http.Client) (ip : net.IP)
    (tr : list http.Exchange) (req : http.Request) (resp : http.Response)
    (p : parsedXML) :
  performs (Update n ctx client ip) tr [(req, Ok resp)] ->
  http.StatusCode resp = http.StatusOK ->
  xml_Decode (http.RespBody resp) = Ok p ->
  Errors_Error p <> "" ->
  forall parse : string -> net.IP,
    outcome (Update (E := with_ParseIP parse) n ctx client ip) tr
    = Error (Wrap ErrUnsuccessfulResponse (Errors_Error p))
    /\ outcome (Update n ctx client ip) tr
       = Error (Wrap ErrUnsuccessfulResponse (Errors_Error p)).
Proof.
  intros Hex Hst Hdec Herr parse.
  run_M.
  unfold setHeaders, headers.SetUserAgent, with_ParseIP in *; simpl in *.
  branches; same_trace; props; simplify_eq; try done; split; congruence.
Qed.

(** C2, as the code has it: the mismatch failure occurs exactly when the
    caller passed a non-nil IP and the address the vendor reports differs
    from it, and [Update] succeeds exactly when the vendor reports an
    address and the IP passed is nil or equal to it.  [useProviderIP] takes
    no part in either: it only decides whether the request carries the
    [ip] parameter. *)
Theorem namecheap_mismatch_exactly
    (n : namecheap) (ctx : http.Context) (client : http.Client) (ip : net.IP)
    (tr : list http.Exchange) :
  ((exists e, outcome (Update n ctx client ip) tr = Error e
              /\ Is e ErrIPReceivedMismatch = true)
   <-> (exists req resp p,
          performs (Update n ctx client ip) tr [(req, Ok resp)]
          /\ http.StatusCode resp = http.StatusOK
          /\ xml_Decode (http.RespBody resp) = Ok p
          /\ Errors_Error p = ""
          /\ net_ParseIP (IP p) <> None
          /\ ip <> None
          /\ net.Equal ip (net_ParseIP (IP p)) = false))
  /\ (forall newIP,
        outcome (Update n ctx client ip) tr = Ok newIP
        <-> (exists req resp p,
               performs (Update n ctx client ip) tr [(req, Ok resp)]
               /\ http.StatusCode resp = http.StatusOK
               /\ xml_Decode (http.RespBody resp) = Ok p
               /\ Errors_Error p = ""
               /\ net_ParseIP (IP p) = newIP
               /\ newIP <> None
               /\ (ip = None \/ net.Equal ip newIP = true)))
  /\ (forall req r,
        performs (Update n ctx client ip) tr [(req, r)] ->
        url.RawQuery (http.URL req) !! "ip"
        = if useProviderIP n then None else Some [net_IP_String ip]).
Proof.
  split; [|split].
  - split.
    + intros (e & He & Hm). walk; eauto 10.
    + intros (req & resp & p & Hex & Hst & Hdec & Herr & Hip & Hnil & Hne).
      walk; try congruence; eauto.
  - intros newIP; split.
    + intros He. walk; eauto 12.
    + intros (req & resp & p & Hex & Hst & Hdec & Herr & Hip & Hnil & Heq).
      walk; try congruence; destruct Heq; congruence.
  - intros req r Hex.
    unfold setHeaders, headers.SetUserAgent, headers.SetAccept,
      http.Header_Set, url.Set_ in *.
    walk; by simplify_map_eq.
Qed.

(** The single-call [Update] fails on a bad status, and on that only. *)
Lemma namecheap_Update_bad_status
    (n : namecheap) (ctx : http.Context) (client : http.Client) (ip : net.IP)
    (tr : list http.Exchange) :
  fails_on_bad_status (Update n ctx client ip) tr.
Proof.
  split.
  - intros resp (pre & req & Hex). unfold bad_status_failure. split.
    + intros (e & He & His & Hc). walk; try done; simpl in *; congruence.
    + intros Hst. walk; try done; eauto.
  - intros e He His. unfold last_answer.
    walk; try done.
    all: eexists; split; [by eexists [], _ | done].
Qed.

End namecheap_properties.

(** ** The lookup-then-mutate adapter *)

Section digitalocean_properties.
Context {E : Env} {C : digitalocean.Codec}.
Import digitalocean.

(** The record type [Update] selects for [ip]. *)
Local Abbreviation recordTypeOf ip :=
  (if net.is_nil (net.To4 ip) then constants.AAAA else constants.A).

(** The lookup performs one exchange, and none under a nil context. *)
Lemma getRecordID_exchanges
    (d : digitalOcean) (ctx : http.Context) (recordType : string)
    (client : http.Client) (tr : list http.Exchange) :
  exists lk,
    performs (getRecordID d ctx recordType client) tr lk
    /\ length lk = match ctx with http.nilContext => 0%nat | _ => 1%nat end.
Proof.
  assert (Hone : forall x : http.Exchange,
             exists lk, (tr ++ [x])%list = (tr ++ lk)%list /\ length lk = 1%nat).
  { intros x. by exists [x]. }
  run_M. destruct ctx; simpl.
  - exists []. by rewrite app_nil_r.
  - branches; by apply Hone.
  - branches; by apply Hone.
Qed.

(** The outcome of a lookup that is answered with status 200 and a body
    that decodes. *)
Lemma getRecordID_answered
    (d : digitalOcean) (ctx : http.Context) (recordType : string)
    (client : http.Client) (tr : list http.Exchange)
    (req : http.Request) (resp : http.Response) (res : lookupResult) :
  performs (getRecordID d ctx recordType client) tr [(req, Ok resp)] ->
  http.StatusCode resp = http.StatusOK ->
  json_Decode_result (http.RespBody resp) = Ok res ->
  outcome (getRecordID d ctx recordType client) tr
  = match DomainRecords res with
    | [] => Error (Sentinel ErrNotFound)
    | first :: _ =>
        if ID first =? 0 then Error (Sentinel ErrDomainIDNotFound)
        else Ok (ID first)
    end.
Proof.
  intros Hex Hst Hdec. walk; congruence.
Qed.

(** C5: once the lookup is answered with status 200 and a body that
    decodes, an empty record list gives [ErrNotFound], a first record
    whose identifier is zero gives [ErrDomainIDNotFound], and any other
    list gives the identifier of its first record; each outcome occurs
    in its own case only. *)
Theorem getRecordID_lookup_results
    (d : digitalOcean) (ctx : http.Context) (recordType : string)
    (client : http.Client) (tr : list http.Exchange)
    (req : http.Request) (resp : http.Response) (res : lookupResult) :
  performs (getRecordID d ctx recordType client) tr [(req, Ok resp)] ->
  http.StatusCode resp = http.StatusOK ->
  json_Decode_result (http.RespBody resp) = Ok res ->
  (outcome (getRecordID d ctx recordType client) tr = Error (Sentinel ErrNotFound)
   <-> DomainRecords res = [])
  /\ (outcome (getRecordID d ctx recordType client) tr
      = Error (Sentinel ErrDomainIDNotFound)
      <-> exists first rest,
            DomainRecords res = first :: rest /\ ID first = 0)
  /\ (forall recordID,
        outcome (getRecordID d ctx recordType client) tr = Ok recordID
        <-> exists first rest,
              DomainRecords res = first :: rest
              /\ ID first = recordID /\ recordID <> 0).
Proof.
  intros Hex Hst Hdec.
  rewrite (getRecordID_answered _ _ _ _ _ _ _ _ Hex Hst Hdec).
  destruct (DomainRecords res) as [|first rest].
  - split_and!; [done | |intros recordID].
    all: split; [done | intros (? & ? & ? & _); done].
  - destruct (Z.eqb_spec (ID first) 0) as [Hz|Hnz].
    + split_and!; [done | |intros recordID].
      * split; eauto.
      * split; [done | intros (? & ? & ? & ? & ?); congruence].
    + split_and!; [done | |intros recordID].
      * split; [done | intros (? & ? & ? & ?); congruence].
      * split.
        -- intros [= <-]. eauto.
        -- intros (? & ? & ? & ? & ?). congruence.
Qed.

(** The request of the lookup filters by the fully-qualified name. *)
Lemma getRecordID_request
    (d : digitalOcean) (ctx : http.Context) (recordType : string)
    (client : http.Client) (tr lk : list http.Exchange) :
  performs (getRecordID d ctx recordType client) tr lk ->
  Forall (fun x =>
            http.Method (fst x) = http.MethodGet
            /\ url.RawQuery (http.URL (fst x)) !! "name"
               = Some [utils_BuildDomainName (host d) (domain d)]
            /\ url.RawQuery (http.URL (fst x)) !! "type" = Some [recordType]
            /\ http.Body (fst x) = None) lk.
Proof.
  intros Hex. run_M. destruct ctx; simpl in *.
  - same_trace. constructor.
  - branches; same_trace; repeat constructor.
  - branches; same_trace; repeat constructor.
Qed.

(** What [Update] performs: the exchanges of the lookup, then at most one
    more, the mutation, and that only after a lookup that returned an
    identifier. *)
Lemma digitalocean_Update_exchanges
    (d : digitalOcean) (ctx : http.Context) (client : http.Client)
    (ip : net.IP) (tr : list http.Exchange) :
  exists lk mut,
    performs (getRecordID d ctx (recordTypeOf ip) client) tr lk
    /\ performs (Update d ctx client ip) tr (lk ++ mut)
    /\ (mut = []
        \/ exists recordID req r buffer,
             mut = [(req, r)]
             /\ outcome (getRecordID d ctx (recordTypeOf ip) client) tr
                = Ok recordID
             /\ http.Method req = http.MethodPut
             /\ url.Path (http.URL req)
                = "/v2/domains/" ++ domain d ++ "/records/" ++ fmt_d recordID
             /\ url.RawQuery (http.URL req) = ∅
             /\ json_Encode {| Type_ := recordTypeOf ip;
                               Name := host d;
                               Data := net_IP_String ip |} = Ok buffer
             /\ http.Body req = Some buffer).
Proof.
  destruct (getRecordID_exchanges d ctx (recordTypeOf ip) client tr)
    as (lk & Hlk & _).
  exists lk.
  unfold performs, outcome, Update, bind, onError in *.
  destruct (getRecordID d ctx (recordTypeOf ip) client tr)
    as [[recordID|e] tr1] eqn:Hg; simpl in *; subst tr1.
  - unfold lift, Do, fail, ret, http.NewRequestWithContext, wrapping.
    destruct (json_Encode _) as [buffer|msg] eqn:Henc; simpl;
      [|exists []; rewrite app_nil_r; auto].
    destruct ctx; simpl; [exists []; rewrite app_nil_r; auto | |].
    all: match goal with
         | |- context [?c (?t ++ ?l)%list ?rq] =>
             exists [(rq, c (t ++ l)%list rq)]
         end.
    all: split; [done|]; split; [branches; by rewrite app_assoc|].
    all: right; eexists _, _, _, _; split_and!; eauto.
  - exists []. rewrite app_nil_r. auto.
Qed.

(** The lookup fails on a bad status, and on that only. *)
Lemma getRecordID_bad_status
    (d : digitalOcean) (ctx : http.Context) (recordType : string)
    (client : http.Client) (tr : list http.Exchange) :
  fails_on_bad_status (getRecordID d ctx recordType client) tr.
Proof.
  split.
  - intros resp (pre & req & Hex). unfold bad_status_failure. split.
    + intros (e & He & His & Hc). walk; try done; simpl in *; congruence.
    + intros Hst. walk; try done; eauto.
  - intros e He His. unfold last_answer.
    walk; try done.
    all: eexists; split; [by eexists [], _ | done].
Qed.

(** The two-step [Update] fails on a bad status, of the lookup or of the
    mutation, and on that only. *)
Lemma digitalocean_Update_bad_status
    (d : digitalOcean) (ctx : http.Context) (client : http.Client)
    (ip : net.IP) (tr : list http.Exchange) :
  fails_on_bad_status (Update d ctx client ip) tr.
Proof.
  split.
  - intros resp (pre & req & Hex). unfold bad_status_failure. split.
    + intros (e & He & His & Hc). walk; try done; simpl in *; congruence.
    + intros Hst. walk; try done; eauto.
  - intros e He His. unfold last_answer.
    walk; try done.
    all: eexists; split; [|eassumption].
    all: first [by eexists [], _ | by (eexists [_], _; rewrite <- app_assoc)].
Qed.

(** C4: a lookup that fails ends [Update] with that error wrapped and
    without any request to the mutation endpoint; and whenever [Update]
    sends the mutation request, it is the last exchange and what precedes
    it is a lookup that returned an identifier. *)
Theorem digitalocean_no_mutation_without_lookup
    (d : digitalOcean) (ctx : http.Context) (client : http.Client)
    (ip : net.IP) (tr : list http.Exchange) :
  (forall e tr',
      getRecordID d ctx (recordTypeOf ip) client tr = (Error e, tr') ->
      Update d ctx client ip tr = (Error (Prefixed ErrGetRecordID e), tr')
      /\ exists lk,
           tr' = (tr ++ lk)%list
           /\ Forall (fun x => http.Method (fst x) <> http.MethodPut) lk)
  /\ (forall new pre req r post,
        performs (Update d ctx client ip) tr new ->
        new = (pre ++ (req, r) :: post)%list ->
        http.Method req = http.MethodPut ->
        post = []
        /\ exists recordID,
             getRecordID d ctx (recordTypeOf ip) client tr
             = (Ok recordID, (tr ++ pre)%list)).
Proof.
  split.
  - intros e tr' Hg. split.
    + unfold Update, bind, onError. by rewrite Hg.
    + destruct (getRecordID_exchanges d ctx (recordTypeOf ip) client tr)
        as (lk & Hlk & _).
      pose proof (getRecordID_request _ _ _ _ _ _ Hlk) as Hget.
      unfold performs in Hlk. rewrite Hg in Hlk. simpl in Hlk.
      exists lk. split; [done|].
      eapply Forall_impl; [exact Hget|].
      intros x (Hm & _). by rewrite Hm.
  - intros new pre req r post Hex -> Hput.
    destruct (digitalocean_Update_exchanges d ctx client ip tr)
      as (lk & mut & Hlk & Hup & Hmut).
    pose proof (getRecordID_request _ _ _ _ _ _ Hlk) as Hget.
    unfold performs in Hex, Hup. rewrite Hex in Hup.
    apply app_inv_head in Hup.
    assert (Hnot : forall l1 l2, lk = (l1 ++ (req, r) :: l2)%list -> False).
    { intros l1 l2 ->. apply Forall_app in Hget as [_ Hget].
      apply Forall_cons in Hget as [(Hm & _) _]. simpl in Hm.
      by rewrite Hput in Hm. }
    destruct Hmut as [->|(recordID & rq & a & buffer & -> & Hok & _)].
    + rewrite app_nil_r in Hup. by destruct (Hnot pre post).
    + destruct post as [|z post _] using rev_ind.
      * apply app_inj_tail in Hup as [-> _]. split; [done|].
        exists recordID. unfold performs, outcome in *.
        destruct (getRecordID d ctx _ client tr); simpl in *. congruence.
      * rewrite app_comm_cons, app_assoc in Hup.
        apply app_inj_tail in Hup as [Hup _]. by destruct (Hnot pre post).
Qed.

(** C10: every request [Update] sends is either the lookup, a GET whose
    [name] parameter is the fully-qualified name made by
    [BuildDomainName], or the mutation, a PUT with no [name] parameter
    whose body encodes a record named by the bare host; that name is not
    the fully-qualified one unless the two coincide.  Under a live context
    the lookup is always sent. *)
Theorem digitalocean_lookup_by_fqdn_mutation_by_host
    (d : digitalOcean) (ctx : http.Context) (client : http.Client)
    (ip : net.IP) (tr : list http.Exchange) :
  (ctx <> http.nilContext ->
   exists req r rest, performs (Update d ctx client ip) tr ((req, r) :: rest))
  /\ (forall new req r,
        performs (Update d ctx client ip) tr new ->
        In (req, r) new ->
        (http.Method req = http.MethodGet
         /\ url.RawQuery (http.URL req) !! "name"
            = Some [utils_BuildDomainName (host d) (domain d)]
         /\ http.Body req = None)
        \/ (http.Method req = http.MethodPut
            /\ url.RawQuery (http.URL req) !! "name" = None
            /\ exists rd buffer,
                 http.Body req = Some buffer
                 /\ json_Encode rd = Ok buffer
                 /\ Type_ rd = recordTypeOf ip
                 /\ Name rd = host d
                 /\ Data rd = net_IP_String ip
                 /\ (utils_BuildDomainName (host d) (domain d) <> host d ->
                     Name rd <> utils_BuildDomainName (host d) (domain d)))).
Proof.
  destruct (digitalocean_Update_exchanges d ctx client ip tr)
    as (lk & mut & Hlk & Hup & Hmut).
  pose proof (getRecordID_request _ _ _ _ _ _ Hlk) as Hget.
  split.
  - intros Hctx.
    destruct (getRecordID_exchanges d ctx (recordTypeOf ip) client tr)
      as (lk' & Hlk' & Hlen).
    unfold performs in Hlk, Hlk'. rewrite Hlk in Hlk'.
    apply app_inv_head in Hlk'. subst lk'.
    destruct lk as [|[req r] rest]; [by destruct ctx|].
    by exists req, r, (rest ++ mut)%list.
  - intros new req r Hex Hin.
    unfold performs in Hex, Hup. rewrite Hex in Hup.
    apply app_inv_head in Hup. subst new.
    apply in_app_or in Hin as [Hin|Hin].
    + left. rewrite Forall_forall in Hget.
      apply list_elem_of_In in Hin.
      by destruct (Hget _ Hin) as (? & ? & ? & ?).
    + right.
      destruct Hmut as [->|(recordID & rq & a & buffer & -> & _ & Hm & _ & Hq
                            & Henc & Hb)]; [done|].
      destruct Hin as [[= <- <-]|[]].
      split; [done|]. split; [by rewrite Hq|].
      eexists _, buffer.
      split_and!; [done | exact Henc | done | done | done | ].
      simpl. congruence.
Qed.

End digitalocean_properties.

(** ** Both adapters *)

Section adapters.
Context {E : Env} {NC : namecheap.Codec} {DC : digitalocean.Codec}.

(** C1: when the caller passed an IP and the address the vendor reports
    back differs from it, [Update] never succeeds, and it returns the
    mismatch error of the adapter as soon as the answer gets as far as the
    comparison; and [Update] never succeeds unless the address it returns
    is the one the vendor's response reports and is equal to the requested
    one.  For the single-call adapter the answer gets as far as the
    comparison when it has status 200 and its body decodes, with an empty
    error field, to an address that parses; for the two-step adapter, when
    it is the answer with status 200 to the mutation and its body decodes
    to an address that parses. *)
Theorem update_never_succeeds_on_mismatch :
  (forall (n : namecheap.namecheap) ctx client (ip : net.IP) tr,
      ip <> None ->
      (forall req resp p,
          performs (namecheap.Update n ctx client ip) tr [(req, Ok resp)] ->
          namecheap.xml_Decode (http.RespBody resp) = Ok p ->
          net.Equal ip (net_ParseIP (namecheap.IP p)) = false ->
          (exists e, outcome (namecheap.Update n ctx client ip) tr = Error e)
          /\ (http.StatusCode resp = http.StatusOK ->
              namecheap.Errors_Error p = "" ->
              net_ParseIP (namecheap.IP p) <> None ->
              outcome (namecheap.Update n ctx client ip) tr
              = Error (Wrap ErrIPReceivedMismatch
                         (net_IP_String (net_ParseIP (namecheap.IP p))))))
      /\ (forall newIP,
            outcome (namecheap.Update n ctx client ip) tr = Ok newIP ->
            net.Equal ip newIP = true
            /\ exists req resp p,
                 performs (namecheap.Update n ctx client ip) tr [(req, Ok resp)]
                 /\ namecheap.xml_Decode (http.RespBody resp) = Ok p
                 /\ net_ParseIP (namecheap.IP p) = newIP))
  /\ (forall (d : digitalocean.digitalOcean) ctx client (ip : net.IP) tr,
        (forall lookup req resp rd,
            performs (digitalocean.Update d ctx client ip) tr
              [lookup; (req, Ok resp)] ->
            digitalocean.json_Decode_responseData (http.RespBody resp) = Ok rd ->
            net.Equal (net_ParseIP (digitalocean.DomainRecord_Data rd)) ip
            = false ->
            (exists e, outcome (digitalocean.Update d ctx client ip) tr = Error e)
            /\ (http.StatusCode resp = http.StatusOK ->
                net_ParseIP (digitalocean.DomainRecord_Data rd) <> None ->
                outcome (digitalocean.Update d ctx client ip) tr
                = Error (Errorf
                           "updated IP address %s is not the IP address %s sent for update"
                           [net_IP_String
                              (net_ParseIP (digitalocean.DomainRecord_Data rd));
                            net_IP_String ip])))
        /\ (forall newIP,
              outcome (digitalocean.Update d ctx client ip) tr = Ok newIP ->
              net.Equal newIP ip = true
              /\ exists lookup req resp rd,
                   performs (digitalocean.Update d ctx client ip) tr
                     [lookup; (req, Ok resp)]
                   /\ digitalocean.json_Decode_responseData (http.RespBody resp)
                      = Ok rd
                   /\ net_ParseIP (digitalocean.DomainRecord_Data rd) = newIP)).
Proof.
  split.
  - intros n ctx client ip tr Hip. split.
    + intros req resp p Hex Hdec Hne. split.
      * walk; try congruence; eauto.
      * intros Hst Herr Hparse. walk; congruence.
    + intros newIP Hok. walk; try done.
      all: split; [done | by eexists _, _, _].
  - intros d ctx client ip tr. split.
    + intros lookup req resp rd Hex Hdec Hne. split.
      * walk; try congruence; eauto.
      * intros Hst Hparse. walk; congruence.
    + intros newIP Hok. walk.
      all: split; [done | eexists _, _, _, _; by rewrite <- app_assoc].
Qed.

(** C3: [New] is a function of the configuration alone, it is given no
    client and performs no exchange, and it fails exactly when the IP
    version is not supported by the vendor (IPv6 for Namecheap), the
    configuration cannot be parsed, or the secret does not have the shape
    the vendor asks for (the password matcher for Namecheap, a non-empty
    token for DigitalOcean).  An adapter that [New] returns, the only kind
    on which [Update] can run, therefore passes [isValid]. *)
Theorem New_rejects_invalid_configuration :
  (forall data domain host ipVersion matcher,
      ((exists e, namecheap.New data domain host ipVersion matcher = Error e)
       <-> (ipVersion = ipversion.IP6
            \/ (exists msg, namecheap.json_Unmarshal data = Error msg)
            \/ (exists s, namecheap.json_Unmarshal data = Ok s
                          /\ regex.NamecheapPassword matcher
                               (namecheap.Password s) = false)))
      /\ (ipVersion = ipversion.IP6 ->
          namecheap.New data domain host ipVersion matcher
          = Error (Sentinel ErrIPv6NotSupported))
      /\ (forall s,
            ipVersion <> ipversion.IP6 ->
            namecheap.json_Unmarshal data = Ok s ->
            regex.NamecheapPassword matcher (namecheap.Password s) = false ->
            namecheap.New data domain host ipVersion matcher
            = Error (Sentinel ErrMalformedPassword))
      /\ (forall n,
            namecheap.New data domain host ipVersion matcher = Ok n ->
            namecheap.isValid n = None
            /\ regex.NamecheapPassword (namecheap.matcher n)
                 (namecheap.password n) = true
            /\ namecheap.ipVersion n <> ipversion.IP6))
  /\ (forall data domain host ipVersion,
        ((exists e, digitalocean.New data domain host ipVersion = Error e)
         <-> ((exists msg, digitalocean.json_Unmarshal data = Error msg)
              \/ (exists s, digitalocean.json_Unmarshal data = Ok s
                            /\ digitalocean.Token s = "")))
        /\ (forall s,
              digitalocean.json_Unmarshal data = Ok s ->
              digitalocean.Token s = "" ->
              digitalocean.New data domain host ipVersion
              = Error (Sentinel ErrEmptyToken))
        /\ (forall d,
              digitalocean.New data domain host ipVersion = Ok d ->
              digitalocean.isValid d = None
              /\ digitalocean.token d <> "")).
Proof.
  split.
  - intros data domain host ipVersion matcher.
    unfold namecheap.New, namecheap.isValid; simpl.
    destruct (decide (ipVersion = ipversion.IP6)) as [->|Hv].
    { rewrite bool_decide_eq_true_2 by done.
      split_and!; [split; eauto | done | done | done]. }
    rewrite bool_decide_eq_false_2 by done.
    destruct (namecheap.json_Unmarshal data) as [s|msg].
    + destruct (regex.NamecheapPassword matcher (namecheap.Password s)) eqn:Hp;
        simpl.
      * split_and!; [split | done | congruence | ].
        -- intros (e & He); done.
        -- intros [?|[(? & ?)|(? & ? & ?)]]; congruence.
        -- intros n [= <-]; simpl. by rewrite Hp.
      * split_and!; [split; eauto 6 | done | done | done].
    + split_and!; [split; eauto 6 | done | done | done].
  - intros data domain host ipVersion.
    unfold digitalocean.New, digitalocean.isValid; simpl.
    destruct (digitalocean.json_Unmarshal data) as [s|msg].
    + destruct (digitalocean.Token s) as [|c t] eqn:Ht; simpl.
      * split_and!; [split; eauto 6 | done | done].
      * split_and!; [split | congruence | ].
        -- intros (e & He); done.
        -- intros [(? & ?)|(? & ? & ?)]; congruence.
        -- intros d [= <-]; simpl. done.
    + split_and!; [split; eauto 6 | done | done].
Qed.

(** C7, as the code has it: in both adapters, [Update] and the lookup
    fail with the bad-status error, carrying the status code and the
    one-line snapshot of the body, exactly when the answer to the last
    exchange has a status other than 200; no other status, of the 2xx
    class or not, passes. *)
Theorem bad_status_exactly_when_not_200 :
  (forall (n : namecheap.namecheap) ctx client ip tr,
      fails_on_bad_status (namecheap.Update n ctx client ip) tr)
  /\ (forall (d : digitalocean.digitalOcean) ctx recordType client tr,
        fails_on_bad_status (digitalocean.getRecordID d ctx recordType client) tr)
  /\ (forall (d : digitalocean.digitalOcean) ctx client ip tr,
        fails_on_bad_status (digitalocean.Update d ctx client ip) tr).
Proof.
  split_and!.
  - apply namecheap_Update_bad_status.
  - apply getRecordID_bad_status.
  - apply digitalocean_Update_bad_status.
Qed.

(** C8: an adapter that [New] returns gives back, through [Domain],
    [Host] and [IPVersion], the domain, host and IP version it was
    constructed with. *)
Theorem accessors_round_trip :
  (forall data domain host ipVersion matcher n,
      namecheap.New data domain host ipVersion matcher = Ok n ->
      namecheap.Domain n = domain
      /\ namecheap.Host n = host
      /\ namecheap.IPVersion n = ipVersion)
  /\ (forall data domain host ipVersion d,
        digitalocean.New data domain host ipVersion = Ok d ->
        digitalocean.Domain d = domain
        /\ digitalocean.Host d = host
        /\ digitalocean.IPVersion d = ipVersion).
Proof.
  split.
  - intros data domain host ipVersion matcher n.
    unfold namecheap.New.
    repeat case_match; intros [= <-]; done.
  - intros data domain host ipVersion d.
    unfold digitalocean.New.
    repeat case_match; intros [= <-]; done.
Qed.

End adapters.


(** ** The scenarios of the documentation, on the concrete environment *)

Section scenarios.
Import fixture.

(** The scenario of the single-call adapter: example.com, host www, the
    vendor answers 200 and echoes the requested 203.0.113.5. *)
Example namecheap_scenario :
  namecheap.New namecheap_config "example.com" "www" ipversion.IP4 matcher
  = Ok (namecheap_www false)
  /\ namecheap.Update (namecheap_www false) http.Background
       (always 200 (xml_ok "203.0.113.5")) ip_203_0_113_5 []
     = (Ok ip_203_0_113_5,
        [(namecheap.setHeaders (namecheap_www false)
            {| http.Ctx := http.Background;
               http.Method := "GET";
               http.URL :=
                 {| url.Scheme := "https";
                    url.Host := "dynamicdns.park-your-domain.com";
                    url.Path := "/update";
                    url.RawQuery :=
                      {[ "host" := ["www"];
                         "domain" := ["example.com"];
                         "password" := ["Aa1-aaaaaaaaaaaaaaaa"];
                         "ip" := ["203.0.113.5"] ]} |};
               http.Header := ∅;
               http.Body := None |},
          Ok {| http.StatusCode := 200;
                http.RespBody := xml_ok "203.0.113.5" |})]).
Proof. split; vm_compute; reflexivity. Qed.

(** The scenario of the two-step adapter: example.org, host api, the
    lookup finds record 42 and the mutation echoes the requested
    198.51.100.9: [Update] succeeds after a GET by fully-qualified name and
    a PUT to the record. *)
Example digitalocean_scenario :
  digitalocean.New digitalocean_config "example.org" "api" ipversion.IP4
  = Ok digitalocean_api
  /\ outcome (digitalocean.Update digitalocean_api http.Background
                (vendor (200, records_body id_42)
                        (200, record_body "198.51.100.9"))
                ip_198_51_100_9) []
     = Ok ip_198_51_100_9
  /\ map (fun x => (http.Method (fst x), url.Path (http.URL (fst x)),
                    url.RawQuery (http.URL (fst x)) !! "name",
                    http.Body (fst x)))
       (snd (digitalocean.Update digitalocean_api http.Background
               (vendor (200, records_body id_42)
                       (200, record_body "198.51.100.9"))
               ip_198_51_100_9 []))
     = [("GET", "/v2/domains/example.org/records",
         Some ["api.example.org"], None);
        ("PUT", "/v2/domains/example.org/records/42", None,
         Some ("{" ++ js "type" ++ ":" ++ js "A" ++ ","
                   ++ js "name" ++ ":" ++ js "api" ++ ","
                   ++ js "data" ++ ":" ++ js "198.51.100.9" ++ "}"))].
Proof. split_and!; vm_compute; reflexivity. Qed.

(** C9 at the scenario of the single-call adapter, called with a nil IP:
    the reported 203.0.113.5 is returned, with or without
    [useProviderIP]. *)
Lemma namecheap_nil_ip_skips_comparison_witness :
  outcome (namecheap.Update (namecheap_www false) http.Background
             (always 200 (xml_ok "203.0.113.5")) None) []
  = Ok ip_203_0_113_5
  /\ outcome (namecheap.Update (namecheap_www true) http.Background
                (always 200 (xml_ok "203.0.113.5")) None) []
     = Ok ip_203_0_113_5.
Proof.
  split.
  - eassert (Hex : performs
                     (namecheap.Update (namecheap_www false) http.Background
                        (always 200 (xml_ok "203.0.113.5")) None) []
                     [(_, Ok _)]) by reflexivity.
    exact (namecheap_nil_ip_skips_comparison _ _ _ _ _ _
             {| namecheap.Errors_Error := ""; namecheap.IP := "203.0.113.5" |}
             Hex eq_refl eq_refl eq_refl ltac:(discriminate)).
  - eassert (Hex : performs
                     (namecheap.Update (namecheap_www true) http.Background
                        (always 200 (xml_ok "203.0.113.5")) None) []
                     [(_, Ok _)]) by reflexivity.
    exact (namecheap_nil_ip_skips_comparison _ _ _ _ _ _
             {| namecheap.Errors_Error := ""; namecheap.IP := "203.0.113.5" |}
             Hex eq_refl eq_refl eq_refl ltac:(discriminate)).
Defined.

(** C6 at the scenario: the vendor answers 200 with an error field and an
    IP field; the error is returned, whatever parses the IP field. *)
Lemma namecheap_vendor_error_takes_precedence_witness :
  outcome (namecheap.Update (namecheap_www false) http.Background
             (always 200 (xml_err "198.51.100.1" "Domain name not found"))
             ip_203_0_113_5) []
  = Error (Wrap ErrUnsuccessfulResponse "Domain name not found").
Proof.
  eassert (Hex : performs
                   (namecheap.Update (namecheap_www false) http.Background
                      (always 200 (xml_err "198.51.100.1" "Domain name not found"))
                      ip_203_0_113_5) []
                   [(_, Ok _)]) by reflexivity.
  exact (proj2 (namecheap_vendor_error_takes_precedence _ _ _ _ _ _ _
                  {| namecheap.Errors_Error := "Domain name not found";
                     namecheap.IP := "198.51.100.1" |}
                  Hex eq_refl eq_refl ltac:(discriminate) ParseIP)).
Defined.

(** C2 fails as stated: with [useProviderIP] set, an IP argument that
    differs from the reported address still makes [Update] fail with the
    mismatch error; the reported address is not returned. *)
Lemma namecheap_provider_ip_still_compared :
  namecheap.useProviderIP (namecheap_www true) = true
  /\ net_ParseIP "198.51.100.1" = ip_198_51_100_1
  /\ outcome (namecheap.Update (namecheap_www true) http.Background
                (always 200 (xml_ok "198.51.100.1")) ip_203_0_113_5) []
     = Error (Wrap ErrIPReceivedMismatch "198.51.100.1")
  /\ outcome (namecheap.Update (namecheap_www true) http.Background
                (always 200 (xml_ok "198.51.100.1")) ip_203_0_113_5) []
     <> Ok ip_198_51_100_1.
Proof.
  split_and!; [reflexivity | reflexivity | reflexivity | discriminate].
Qed.

(** The amended C2 at the same input: the mismatch failure is the one the
    characterisation gives. *)
Lemma namecheap_mismatch_exactly_witness :
  exists e,
    outcome (namecheap.Update (namecheap_www true) http.Background
               (always 200 (xml_ok "198.51.100.1")) ip_203_0_113_5) []
    = Error e
    /\ Is e ErrIPReceivedMismatch = true.
Proof.
  apply (proj2 (proj1 (namecheap_mismatch_exactly (namecheap_www true)
                         http.Background (always 200 (xml_ok "198.51.100.1"))
                         ip_203_0_113_5 []))).
  eexists _, _, {| namecheap.Errors_Error := ""; namecheap.IP := "198.51.100.1" |}.
  split_and!; [reflexivity | reflexivity | reflexivity | reflexivity
              | discriminate | discriminate | reflexivity].
Defined.

(** C1 at the two scenarios with a vendor that echoes 198.51.100.1: the
    single-call adapter asked for 203.0.113.5 and the two-step adapter
    asked for 198.51.100.9 both fail with their mismatch error. *)
Lemma update_never_succeeds_on_mismatch_witness :
  outcome (namecheap.Update (namecheap_www false) http.Background
             (always 200 (xml_ok "198.51.100.1")) ip_203_0_113_5) []
  = Error (Wrap ErrIPReceivedMismatch "198.51.100.1")
  /\ outcome (digitalocean.Update digitalocean_api http.Background
                (vendor (200, records_body id_42)
                        (200, record_body "198.51.100.1"))
                ip_198_51_100_9) []
     = Error (Errorf
                "updated IP address %s is not the IP address %s sent for update"
                ["198.51.100.1"; "198.51.100.9"]).
Proof.
  destruct update_never_succeeds_on_mismatch as [Hn Hd].
  split.
  - eassert (Hex : performs
                     (namecheap.Update (namecheap_www false) http.Background
                        (always 200 (xml_ok "198.51.100.1")) ip_203_0_113_5) []
                     [(_, Ok _)]) by reflexivity.
    exact (proj2 (proj1 (Hn (namecheap_www false) http.Background
                           (always 200 (xml_ok "198.51.100.1")) ip_203_0_113_5
                           [] ltac:(discriminate)) _ _
                    {| namecheap.Errors_Error := "";
                       namecheap.IP := "198.51.100.1" |}
                    Hex eq_refl eq_refl)
             eq_refl eq_refl ltac:(discriminate)).
  - eassert (Hex : performs
                     (digitalocean.Update digitalocean_api http.Background
                        (vendor (200, records_body id_42)
                                (200, record_body "198.51.100.1"))
                        ip_198_51_100_9) []
                     [_; (_, Ok _)]) by reflexivity.
    exact (proj2 (proj1 (Hd digitalocean_api http.Background
                           (vendor (200, records_body id_42)
                                   (200, record_body "198.51.100.1"))
                           ip_198_51_100_9 []) _ _ _
                    {| digitalocean.DomainRecord_Data := "198.51.100.1" |}
                    Hex eq_refl eq_refl)
             eq_refl ltac:(discriminate)).
Defined.

(** C3 at three rejected configurations: IPv6 and a short password for
    Namecheap, an empty token for DigitalOcean. *)
Lemma New_rejects_invalid_configuration_witness :
  namecheap.New namecheap_config "example.com" "www" ipversion.IP6 matcher
  = Error (Sentinel ErrIPv6NotSupported)
  /\ namecheap.New namecheap_config_short "example.com" "www" ipversion.IP4
       matcher
     = Error (Sentinel ErrMalformedPassword)
  /\ digitalocean.New digitalocean_config_empty "example.org" "api"
       ipversion.IP4
     = Error (Sentinel ErrEmptyToken).
Proof.
  destruct New_rejects_invalid_configuration as [Hn Hd].
  split_and!.
  - exact (proj1 (proj2 (Hn namecheap_config "example.com" "www"
                           ipversion.IP6 matcher)) eq_refl).
  - exact (proj1 (proj2 (proj2 (Hn namecheap_config_short "example.com" "www"
                                  ipversion.IP4 matcher)))
             {| namecheap.Password := "short"; namecheap.UseProviderIP := false |}
             ltac:(discriminate) eq_refl eq_refl).
  - exact (proj1 (proj2 (Hd digitalocean_config_empty "example.org" "api"
                           ipversion.IP4))
             {| digitalocean.Token := "" |} eq_refl eq_refl).
Defined.

(** C4 at the scenario with an empty record list: the lookup fails with
    [ErrNotFound], [Update] returns it wrapped, and the one exchange
    performed is the lookup. *)
Lemma digitalocean_no_mutation_without_lookup_witness :
  outcome (digitalocean.Update digitalocean_api http.Background
             (vendor (200, records_body "") (200, record_body "198.51.100.9"))
             ip_198_51_100_9) []
  = Error (Prefixed ErrGetRecordID (Sentinel ErrNotFound))
  /\ map (fun x => http.Method (fst x))
       (snd (digitalocean.Update digitalocean_api http.Background
               (vendor (200, records_body "")
                       (200, record_body "198.51.100.9"))
               ip_198_51_100_9 []))
     = [http.MethodGet].
Proof.
  pose (lookup := digitalocean.getRecordID digitalocean_api http.Background
                    constants.A
                    (vendor (200, records_body "")
                            (200, record_body "198.51.100.9")) []).
  assert (Hg : lookup = (Error (Sentinel ErrNotFound), snd lookup))
    by reflexivity.
  destruct (proj1 (digitalocean_no_mutation_without_lookup digitalocean_api
                     http.Background
                     (vendor (200, records_body "")
                             (200, record_body "198.51.100.9"))
                     ip_198_51_100_9 []) _ _ Hg) as [Hup _].
  unfold outcome. rewrite Hup. split; reflexivity.
Defined.

(** C5 at three answers to the lookup: one record with identifier 42, one
    with identifier 0, and no record. *)
Lemma getRecordID_lookup_results_witness :
  outcome (digitalocean.getRecordID digitalocean_api http.Background
             constants.A (always 200 (records_body id_42))) []
  = Ok 42
  /\ outcome (digitalocean.getRecordID digitalocean_api http.Background
                constants.A (always 200 (records_body id_0))) []
     = Error (Sentinel ErrDomainIDNotFound)
  /\ outcome (digitalocean.getRecordID digitalocean_api http.Background
                constants.A (always 200 (records_body ""))) []
     = Error (Sentinel ErrNotFound).
Proof.
  split_and!.
  - eassert (Hex : performs
                     (digitalocean.getRecordID digitalocean_api
                        http.Background constants.A
                        (always 200 (records_body id_42))) []
                     [(_, Ok _)]) by reflexivity.
    apply (proj2 (proj2 (getRecordID_lookup_results _ _ _ _ _ _ _
                           {| digitalocean.DomainRecords :=
                                [ {| digitalocean.ID := 42 |} ] |}
                           Hex eq_refl eq_refl))).
    by eexists _, _.
  - eassert (Hex : performs
                     (digitalocean.getRecordID digitalocean_api
                        http.Background constants.A
                        (always 200 (records_body id_0))) []
                     [(_, Ok _)]) by reflexivity.
    apply (proj1 (proj2 (getRecordID_lookup_results _ _ _ _ _ _ _
                           {| digitalocean.DomainRecords :=
                                [ {| digitalocean.ID := 0 |} ] |}
                           Hex eq_refl eq_refl))).
    by eexists _, _.
  - eassert (Hex : performs
                     (digitalocean.getRecordID digitalocean_api
                        http.Background constants.A
                        (always 200 (records_body ""))) []
                     [(_, Ok _)]) by reflexivity.
    by apply (proj1 (getRecordID_lookup_results _ _ _ _ _ _ _
                       {| digitalocean.DomainRecords := [] |}
                       Hex eq_refl eq_refl)).
Defined.

(** C7 fails as stated: 201 and 204 are success (2xx) statuses, and each
    by itself makes the call fail with the bad-status error, in the
    single-call adapter and at the mutation of the two-step adapter, on
    bodies with which status 200 succeeds. *)
Lemma status_2xx_other_than_200_is_rejected :
  (200 <= 201 < 300 /\ 200 <= 204 < 300)
  /\ outcome (namecheap.Update (namecheap_www false) http.Background
                (always 200 (xml_ok "203.0.113.5")) ip_203_0_113_5) []
     = Ok ip_203_0_113_5
  /\ outcome (namecheap.Update (namecheap_www false) http.Background
                (always 201 (xml_ok "203.0.113.5")) ip_203_0_113_5) []
     = Error (WrapStatus ErrBadHTTPStatus 201 (xml_ok "203.0.113.5"))
  /\ outcome (digitalocean.Update digitalocean_api http.Background
                (vendor (200, records_body id_42)
                        (200, record_body "198.51.100.9"))
                ip_198_51_100_9) []
     = Ok ip_198_51_100_9
  /\ outcome (digitalocean.Update digitalocean_api http.Background
                (vendor (200, records_body id_42)
                        (204, record_body "198.51.100.9"))
                ip_198_51_100_9) []
     = Error (WrapStatus ErrBadHTTPStatus 204 (record_body "198.51.100.9")).
Proof.
  split_and!; first [lia | reflexivity].
Qed.

(** The amended C7 at the same vendor: the answer 201 is the last answer
    of the call and is not 200, hence the bad-status failure made from
    it. *)
Lemma bad_status_exactly_when_not_200_witness :
  bad_status_failure
    (namecheap.Update (namecheap_www false) http.Background
       (always 201 (xml_ok "203.0.113.5")) ip_203_0_113_5) []
    {| http.StatusCode := 201; http.RespBody := xml_ok "203.0.113.5" |}.
Proof.
  destruct bad_status_exactly_when_not_200 as (Hn & _ & _).
  apply (proj1 (Hn (namecheap_www false) http.Background
                  (always 201 (xml_ok "203.0.113.5")) ip_203_0_113_5 [])).
  - by eexists [], _.
  - discriminate.
Defined.

(** C8 at the two scenarios: the adapters come from [New] and give back
    their domain, host and IP version. *)
Lemma accessors_round_trip_witness :
  (namecheap.Domain (namecheap_www false) = "example.com"
   /\ namecheap.Host (namecheap_www false) = "www"
   /\ namecheap.IPVersion (namecheap_www false) = ipversion.IP4)
  /\ (digitalocean.Domain digitalocean_api = "example.org"
      /\ digitalocean.Host digitalocean_api = "api"
      /\ digitalocean.IPVersion digitalocean_api = ipversion.IP4).
Proof.
  destruct accessors_round_trip as [Hn Hd].
  split.
  - exact (Hn namecheap_config "example.com" "www" ipversion.IP4 matcher
              (namecheap_www false) eq_refl).
  - exact (Hd digitalocean_config "example.org" "api" ipversion.IP4
              digitalocean_api eq_refl).
Defined.

(** C10 at the scenario of the two-step adapter: the lookup is sent, and
    each of the two requests is of one of the two kinds. *)
Lemma digitalocean_lookup_by_fqdn_mutation_by_host_witness :
  (exists req r rest,
      performs (digitalocean.Update digitalocean_api http.Background
                  (vendor (200, records_body id_42)
                          (200, record_body "198.51.100.9"))
                  ip_198_51_100_9) [] ((req, r) :: rest))
  /\ Forall (fun x =>
               (http.Method (fst x) = http.MethodGet
                /\ url.RawQuery (http.URL (fst x)) !! "name"
                   = Some ["api.example.org"]
                /\ http.Body (fst x) = None)
               \/ (http.Method (fst x) = http.MethodPut
                   /\ url.RawQuery (http.URL (fst x)) !! "name" = None
                   /\ exists rd buffer,
                        http.Body (fst x) = Some buffer
                        /\ digitalocean.json_Encode rd = Ok buffer
                        /\ digitalocean.Type_ rd = "A"
                        /\ digitalocean.Name rd = "api"
                        /\ digitalocean.Data rd = "198.51.100.9"
                        /\ ("api.example.org" <> "api" ->
                            digitalocean.Name rd <> "api.example.org")))
       (snd (digitalocean.Update digitalocean_api http.Background
               (vendor (200, records_body id_42)
                       (200, record_body "198.51.100.9"))
               ip_198_51_100_9 [])).
Proof.
  destruct (digitalocean_lookup_by_fqdn_mutation_by_host digitalocean_api
              http.Background
              (vendor (200, records_body id_42)
                      (200, record_body "198.51.100.9"))
              ip_198_51_100_9 []) as [Hsent Hkind].
  split.
  - apply Hsent. discriminate.
  - apply Forall_forall. intros [req r] Hin.
    apply (Hkind _ req r eq_refl). by apply list_elem_of_In.
Defined.

End scenarios.

(** * Further properties *)

(** Names the request handed to the client in the goal. *)
Ltac sent_request client tr :=
  match goal with
  | |- context [client tr ?rq] => exists rq
  end.

(** ** The single-call adapter, further *)

Section namecheap_further.
Context {E : Env} {C : namecheap.Codec}.
Import namecheap.

(** X1: under a live context [Update] performs exactly one exchange, and
    none under a nil context.  The request is a GET of
    https://dynamicdns.park-your-domain.com/update without a body, whose
    query carries the host, the domain and the password of the adapter
    and, [ip] apart, nothing else. *)
Theorem namecheap_Update_one_request
    (n : namecheap) (ctx : http.Context) (client : http.Client) (ip : net.IP)
    (tr : list http.Exchange) :
  (ctx = http.nilContext -> performs (Update n ctx client ip) tr [])
  /\ (ctx <> http.nilContext ->
      exists req,
        performs (Update n ctx client ip) tr [(req, client tr req)]
        /\ http.Ctx req = ctx
        /\ http.Method req = http.MethodGet
        /\ url.Scheme (http.URL req) = "https"
        /\ url.Host (http.URL req) = "dynamicdns.park-your-domain.com"
        /\ url.Path (http.URL req) = "/update"
        /\ http.Body req = None
        /\ url.RawQuery (http.URL req) !! "host" = Some [host n]
        /\ url.RawQuery (http.URL req) !! "domain" = Some [domain n]
        /\ url.RawQuery (http.URL req) !! "password" = Some [password n]
        /\ (forall key,
              key <> "host" -> key <> "domain" -> key <> "password" ->
              key <> "ip" ->
              url.RawQuery (http.URL req) !! key = None)).
Proof.
  split.
  - intros ->. run_M. by rewrite app_nil_r.
  - intros Hctx.
    unfold performs, Update, bind, lift, Do, http.NewRequestWithContext.
    destruct ctx; [done| |]; simpl.
    all: sent_request client tr.
    all: split; [branches; reflexivity|].
    all: unfold setHeaders, headers.SetUserAgent, headers.SetAccept,
           http.Header_Set, url.Set_; simpl.
    all: split_and!; try done.
    all: try (destruct (useProviderIP n); simpl; by simplify_map_eq).
    all: intros key ? ? ? ?; destruct (useProviderIP n); simpl;
           by simplify_map_eq.
Qed.

(** X2: a failure of the transport is passed on as it is: when
    [client.Do] fails, [Update] returns that very error, unwrapped. *)
Theorem namecheap_transport_error_passed_on
    (n : namecheap) (ctx : http.Context) (client : http.Client) (ip : net.IP)
    (tr : list http.Exchange) (req : http.Request) (msg : string) :
  performs (Update n ctx client ip) tr [(req, Error msg)] ->
  outcome (Update n ctx client ip) tr = Error (Foreign msg).
Proof.
  intros Hex. walk; congruence.
Qed.

(** X3: an answer with status 200 whose body does not decode makes
    [Update] fail with [ErrUnmarshalResponse] wrapped around the message
    of the decoder, whatever the IP passed. *)
Theorem namecheap_undecodable_body
    (n : namecheap) (ctx : http.Context) (client : http.Client) (ip : net.IP)
    (tr : list http.Exchange) (req : http.Request) (resp : http.Response)
    (msg : string) :
  performs (Update n ctx client ip) tr [(req, Ok resp)] ->
  http.StatusCode resp = http.StatusOK ->
  xml_Decode (http.RespBody resp) = Error msg ->
  outcome (Update n ctx client ip) tr = Error (Wrap ErrUnmarshalResponse msg).
Proof.
  intros Hex Hst Hdec. walk; congruence.
Qed.

(** X4: a reported IP that does not parse makes [Update] fail with
    [ErrIPReceivedMalformed] carrying the text received, before any
    comparison: also when the IP passed is nil, the case in which the
    comparison is skipped. *)
Theorem namecheap_malformed_ip
    (n : namecheap) (ctx : http.Context) (client : http.Client) (ip : net.IP)
    (tr : list http.Exchange) (req : http.Request) (resp : http.Response)
    (p : parsedXML) :
  performs (Update n ctx client ip) tr [(req, Ok resp)] ->
  http.StatusCode resp = http.StatusOK ->
  xml_Decode (http.RespBody resp) = Ok p ->
  Errors_Error p = "" ->
  net_ParseIP (IP p) = None ->
  outcome (Update n ctx client ip) tr
  = Error (Wrap ErrIPReceivedMalformed (IP p)).
Proof.
  intros Hex Hst Hdec Herr Hip. walk; congruence.
Qed.

(** X5: the failures of [Update] form a closed set: an error it returns
    is a transport error passed on, or a wrapped sentinel among
    [ErrBadHTTPStatus], [ErrUnmarshalResponse], [ErrUnsuccessfulResponse],
    [ErrIPReceivedMalformed] and [ErrIPReceivedMismatch]; [errors.Is]
    holds of it for no other sentinel. *)
Theorem namecheap_error_kinds
    (n : namecheap) (ctx : http.Context) (client : http.Client) (ip : net.IP)
    (tr : list http.Exchange) (e : error) :
  outcome (Update n ctx client ip) tr = Error e ->
  ((exists msg, e = Foreign msg)
   \/ (exists code body, e = WrapStatus ErrBadHTTPStatus code body)
   \/ (exists s detail,
         e = Wrap s detail
         /\ In s [ErrUnmarshalResponse; ErrUnsuccessfulResponse;
                  ErrIPReceivedMalformed; ErrIPReceivedMismatch]))
  /\ (forall s,
        Is e s = true ->
        In s [ErrBadHTTPStatus; ErrUnmarshalResponse; ErrUnsuccessfulResponse;
              ErrIPReceivedMalformed; ErrIPReceivedMismatch]).
Proof.
  intros He. walk.
  all: split; [|intros t Ht; simpl in Ht; try done;
                 apply bool_decide_eq_true in Ht; subst t; simpl; tauto].
  all: first [ by left; eexists
             | by right; left; eexists _, _
             | right; right; eexists _, _; split; [done | simpl; tauto] ].
Qed.

(** X6: the comparison is [net.IP.Equal], not a comparison of bytes: an
    IPv4 address passed in its 4-byte form is accepted when the vendor
    echoes it, and what [Update] returns is the 16-byte form that
    [net.ParseIP] gave, not the slice passed. *)
Theorem namecheap_accepts_4_byte_form
    (n : namecheap) (ctx : http.Context) (client : http.Client)
    (a b c d : byte)
    (tr : list http.Exchange) (req : http.Request) (resp : http.Response)
    (p : parsedXML) :
  performs (Update n ctx client (Some [a; b; c; d])) tr [(req, Ok resp)] ->
  http.StatusCode resp = http.StatusOK ->
  xml_Decode (http.RespBody resp) = Ok p ->
  Errors_Error p = "" ->
  net_ParseIP (IP p) = Some (net.v4InV6Prefix ++ [a; b; c; d])%list ->
  outcome (Update n ctx client (Some [a; b; c; d])) tr
  = Ok (Some (net.v4InV6Prefix ++ [a; b; c; d])%list)
  /\ Some (net.v4InV6Prefix ++ [a; b; c; d])%list <> Some [a; b; c; d].
Proof.
  intros Hex Hst Hdec Herr Hip.
  split; [|discriminate].
  pose proof (net_Equal_v4_v6 a b c d) as Heq.
  walk; try congruence.
  all: match goal with
       | H1 : xml_Decode ?x = Ok ?p1, H2 : xml_Decode ?x = Ok ?p2 |- _ =>
           rewrite H1 in H2; injection H2 as ->
       end.
  all: by rewrite Hip.
Qed.

End namecheap_further.

(** ** The lookup-then-mutate adapter, further *)

Section digitalocean_further.
Context {E : Env} {C : digitalocean.Codec}.
Import digitalocean.

Local Abbreviation recordTypeOf ip :=
  (if net.is_nil (net.To4 ip) then constants.AAAA else constants.A).

(** X7: [Update] performs at most two exchanges, all of them with
    https://api.digitalocean.com and under the context of the call: a GET
    of the records of the adapter's domain or a PUT of one record of that
    domain.  Every request has gone through [setHeaders], so that the
    lookup and the mutation carry the same headers. *)
Theorem digitalocean_Update_requests
    (d : digitalOcean) (ctx : http.Context) (client : http.Client)
    (ip : net.IP) (tr new : list http.Exchange) :
  performs (Update d ctx client ip) tr new ->
  (length new <= 2)%nat
  /\ Forall (fun x =>
               http.Ctx (fst x) = ctx
               /\ url.Scheme (http.URL (fst x)) = "https"
               /\ url.Host (http.URL (fst x)) = "api.digitalocean.com"
               /\ ((http.Method (fst x) = http.MethodGet
                    /\ url.Path (http.URL (fst x))
                       = "/v2/domains/" ++ domain d ++ "/records")
                   \/ (http.Method (fst x) = http.MethodPut
                       /\ exists recordID,
                            url.Path (http.URL (fst x))
                            = "/v2/domains/" ++ domain d ++ "/records/"
                              ++ fmt_d recordID))
               /\ http.Header (fst x)
                  = http.Header
                      (setHeaders d
                         {| http.Ctx := ctx; http.Method := http.MethodGet;
                            http.URL := http.URL (fst x); http.Header := ∅;
                            http.Body := None |})) new.
Proof.
  intros Hex. run_M. destruct ctx; simpl in *.
  all: branches; same_trace; (split; [simpl; lia|]).
  all: repeat first [by apply Forall_nil | apply Forall_cons; split].
  all: simpl; split_and!; try done.
  all: first [by left | by right; split; [|eexists]].
Qed.

(** X8: when [Update] goes on to the mutation, the lookup was answered
    with status 200 by a non-empty record list, and the record the PUT
    addresses is the first of that list, whose identifier is not zero; the
    records after the first play no part. *)
Theorem digitalocean_mutation_targets_first_record
    (d : digitalOcean) (ctx : http.Context) (client : http.Client)
    (ip : net.IP) (tr : list http.Exchange)
    (lookup mutation : http.Exchange) :
  performs (Update d ctx client ip) tr [lookup; mutation] ->
  exists resp res first rest,
    snd lookup = Ok resp
    /\ http.StatusCode resp = http.StatusOK
    /\ json_Decode_result (http.RespBody resp) = Ok res
    /\ DomainRecords res = first :: rest
    /\ ID first <> 0
    /\ http.Method (fst mutation) = http.MethodPut
    /\ url.Path (http.URL (fst mutation))
       = "/v2/domains/" ++ domain d ++ "/records/" ++ fmt_d (ID first).
Proof.
  intros Hex. walk.
  all: eexists _, _, _, _; split_and!; eauto.
Qed.

(** X9: the record type is "A" when the IP has a 4-byte form and "AAAA"
    otherwise, a nil IP included, and the lookup asks for that type in its
    [type] parameter. *)
Theorem digitalocean_record_type
    (d : digitalOcean) (ctx : http.Context) (client : http.Client)
    (ip : net.IP) (tr new : list http.Exchange) :
  performs (Update d ctx client ip) tr new ->
  Forall (fun x =>
            http.Method (fst x) = http.MethodGet ->
            url.RawQuery (http.URL (fst x)) !! "type"
            = Some [recordTypeOf ip]) new
  /\ (net.To4 ip <> None -> recordTypeOf ip = "A")
  /\ (net.To4 ip = None -> recordTypeOf ip = "AAAA")
  /\ (net.len ip = 4%nat -> recordTypeOf ip = "A")
  /\ (ip = None -> recordTypeOf ip = "AAAA").
Proof.
  intros Hex. split_and!.
  - destruct (digitalocean_Update_exchanges d ctx client ip tr)
      as (lk & mut & Hlk & Hup & Hmut).
    pose proof (getRecordID_request _ _ _ _ _ _ Hlk) as Hget.
    unfold performs in Hex, Hup. rewrite Hex in Hup.
    apply app_inv_head in Hup. subst new.
    apply Forall_app. split.
    + eapply Forall_impl; [exact Hget|]. by intros x (_ & _ & Ht & _) _.
    + destruct Hmut as [->|(recordID & rq & a & buffer & -> & _ & Hm & _)];
        [constructor|].
      repeat constructor. simpl. by rewrite Hm.
  - by destruct (net.To4 ip).
  - by intros ->.
  - intros Hlen. unfold net.To4, net.IPv4len.
    rewrite Hlen; simpl. by destruct ip.
  - by intros ->.
Qed.

(** X10: a failure of the transport during the lookup comes back wrapped
    by the lookup stage, with [ErrGetRecordID] as the text in front, and
    no mutation is attempted; a failure of the transport during the
    mutation comes back as it is. *)
Theorem digitalocean_transport_errors
    (d : digitalOcean) (ctx : http.Context) (client : http.Client)
    (ip : net.IP) (tr : list http.Exchange) (req : http.Request)
    (msg : string) :
  (performs (Update d ctx client ip) tr [(req, Error msg)] ->
   outcome (Update d ctx client ip) tr
   = Error (Prefixed ErrGetRecordID (Foreign msg)))
  /\ (forall lookup,
        performs (Update d ctx client ip) tr [lookup; (req, Error msg)] ->
        outcome (Update d ctx client ip) tr = Error (Foreign msg)).
Proof.
  split.
  - intros Hex. walk; congruence.
  - intros lookup Hex. walk; congruence.
Qed.

(** X11: when the body of the mutation cannot be encoded, [Update] fails
    with [ErrRequestEncode] wrapped around the message of the encoder
    after the lookup alone: no request is built and none is sent. *)
Theorem digitalocean_encode_failure
    (d : digitalOcean) (ctx : http.Context) (client : http.Client)
    (ip : net.IP) (tr tr' : list http.Exchange) (recordID : Z) (msg : string) :
  getRecordID d ctx (recordTypeOf ip) client tr = (Ok recordID, tr') ->
  json_Encode {| Type_ := recordTypeOf ip;
                 Name := host d;
                 Data := net_IP_String ip |} = Error msg ->
  Update d ctx client ip tr = (Error (Wrap ErrRequestEncode msg), tr').
Proof.
  intros Hg Henc.
  unfold Update, bind, onError. rewrite Hg.
  unfold lift, wrapping. by rewrite Henc.
Qed.

(** X12: [Update] succeeds exactly when both exchanges are answered with
    status 200, the lookup finds a first record with a non-zero
    identifier, the body of the mutation can be encoded, and the answer to
    the mutation decodes to an address that parses and is [Equal] to the
    IP passed; what it returns is that parsed address. *)
Theorem digitalocean_success_exactly
    (d : digitalOcean) (ctx : http.Context) (client : http.Client)
    (ip newIP : net.IP) (tr : list http.Exchange) :
  outcome (Update d ctx client ip) tr = Ok newIP
  <-> exists lk resp1 res first rest req resp2 rd buffer,
        performs (Update d ctx client ip) tr [(lk, Ok resp1); (req, Ok resp2)]
        /\ http.StatusCode resp1 = http.StatusOK
        /\ json_Decode_result (http.RespBody resp1) = Ok res
        /\ DomainRecords res = first :: rest
        /\ ID first <> 0
        /\ json_Encode {| Type_ := recordTypeOf ip;
                          Name := host d;
                          Data := net_IP_String ip |} = Ok buffer
        /\ http.Body req = Some buffer
        /\ http.StatusCode resp2 = http.StatusOK
        /\ json_Decode_responseData (http.RespBody resp2) = Ok rd
        /\ net_ParseIP (DomainRecord_Data rd) = newIP
        /\ newIP <> None
        /\ net.Equal newIP ip = true.
Proof.
  split.
  - intros Hok. walk.
    all: eexists _, _, _, _, _, _, _, _, _; rewrite <- app_assoc.
    all: split_and!; eauto.
  - intros (lk & resp1 & res & first & rest & req & resp2 & rd & buffer
            & Hex & Hst1 & Hdec1 & Hrec & Hid & Henc & Hbody & Hst2 & Hdec2
            & Hparse & Hnil & Heq).
    walk; congruence.
Qed.

(** X13: once the mutation is answered with status 200, a body that does
    not decode gives [ErrUnmarshalResponse], and a decoded address that
    does not parse gives the malformed-address error, before any
    comparison; that error and the mismatch error of this adapter wrap no
    sentinel, so [errors.Is] holds of them for none. *)
Theorem digitalocean_mutation_answer_failures
    (d : digitalOcean) (ctx : http.Context) (client : http.Client)
    (ip : net.IP) (tr : list http.Exchange) (lookup : http.Exchange)
    (req : http.Request) (resp : http.Response) :
  performs (Update d ctx client ip) tr [lookup; (req, Ok resp)] ->
  http.StatusCode resp = http.StatusOK ->
  (forall msg,
      json_Decode_responseData (http.RespBody resp) = Error msg ->
      outcome (Update d ctx client ip) tr
      = Error (Wrap ErrUnmarshalResponse msg))
  /\ (forall rd,
        json_Decode_responseData (http.RespBody resp) = Ok rd ->
        net_ParseIP (DomainRecord_Data rd) = None ->
        outcome (Update d ctx client ip) tr
        = Error (Errorf "IP address received %q is malformed"
                   [DomainRecord_Data rd]))
  /\ (forall rd e,
        json_Decode_responseData (http.RespBody resp) = Ok rd ->
        outcome (Update d ctx client ip) tr = Error e ->
        forall s, Is e s = false).
Proof.
  intros Hex Hst. split_and!.
  - intros msg Hdec. walk; congruence.
  - intros rd Hdec Hparse. walk; congruence.
  - intros rd e Hdec He s. walk; try congruence; done.
Qed.

(** X14: the lookup succeeds exactly when its one exchange is answered
    with status 200 by a record list whose first identifier is not zero,
    and returns that identifier: a successful lookup never returns zero. *)
Theorem getRecordID_success_exactly
    (d : digitalOcean) (ctx : http.Context) (recordType : string)
    (client : http.Client) (tr : list http.Exchange) (recordID : Z) :
  outcome (getRecordID d ctx recordType client) tr = Ok recordID
  <-> recordID <> 0
      /\ exists req resp res rest,
           performs (getRecordID d ctx recordType client) tr [(req, Ok resp)]
           /\ http.StatusCode resp = http.StatusOK
           /\ json_Decode_result (http.RespBody resp) = Ok res
           /\ DomainRecords res = {| ID := recordID |} :: rest.
Proof.
  split.
  - intros Hok. walk.
    all: split; [done|]; eexists _, _, _, _; split_and!; eauto.
    all: match goal with
         | H : DomainRecords _ = ?r :: _ |- _ => by destruct r
         end.
  - intros (Hid & req & resp & res & rest & Hex & Hst & Hdec & Hrec).
    walk; try congruence.
    all: match goal with
         | H1 : json_Decode_result ?x = Ok ?a,
           H2 : json_Decode_result ?x = Ok ?b |- _ =>
             rewrite H1 in H2; injection H2 as ->
         end.
    all: match goal with
         | H1 : DomainRecords ?x = _, H2 : DomainRecords ?x = _ |- _ =>
             rewrite H1 in H2; simplify_eq
         end.
    all: simpl in *; congruence.
Qed.

(** X15: the failures of [Update] form a closed set for [errors.Is]: an
    error it returns matches no sentinel other than [ErrBadHTTPStatus],
    [ErrUnmarshalResponse], [ErrNotFound], [ErrDomainIDNotFound] and
    [ErrRequestEncode].  In particular it never matches [ErrGetRecordID],
    which is only the text in front of a lookup failure, nor
    [ErrIPReceivedMalformed] or [ErrIPReceivedMismatch]. *)
Theorem digitalocean_error_kinds
    (d : digitalOcean) (ctx : http.Context) (client : http.Client)
    (ip : net.IP) (tr : list http.Exchange) (e : error) (s : sentinel) :
  outcome (Update d ctx client ip) tr = Error e ->
  Is e s = true ->
  In s [ErrBadHTTPStatus; ErrUnmarshalResponse; ErrNotFound;
        ErrDomainIDNotFound; ErrRequestEncode].
Proof.
  intros He Hs. walk; simpl in *; try done.
  all: apply bool_decide_eq_true in Hs; subst s; tauto.
Qed.

End digitalocean_further.

(** ** Both adapters, further *)

Section adapters_further.
Context {E : Env} {NC : namecheap.Codec} {DC : digitalocean.Codec}.

(** An address of 16 bytes is [Equal] to no address whose length is
    neither 4 nor 16, in either direction. *)
Lemma net_Equal_odd_length (ip x : net.IP) :
  net.len x = 16%nat -> net.len ip <> 4%nat -> net.len ip <> 16%nat ->
  net.Equal ip x = false /\ net.Equal x ip = false.
Proof.
  intros Hx H4 H16. rewrite (net_Equal_sym x ip). split.
  all: unfold net.Equal, net.IPv4len, net.IPv6len; rewrite Hx.
  all: destruct (Nat.eqb_spec (net.len ip) 16); [done|].
  all: destruct (Nat.eqb_spec (net.len ip) 4); [done|].
  all: by rewrite andb_false_r.
Qed.

(** X16: with a [net.ParseIP] that returns nil or an address of 16 bytes,
    as the one of the standard library does, [Update] never succeeds on
    an IP whose length is neither 4 nor 16: for the single-call adapter
    when that IP is not nil (a nil IP skips the comparison), for the
    two-step adapter always, a nil IP included. *)
Theorem update_rejects_odd_length_ip :
  (forall s, net_ParseIP s = None \/ net.len (net_ParseIP s) = 16%nat) ->
  (forall (n : namecheap.namecheap) ctx client (ip : net.IP) tr newIP,
      ip <> None ->
      net.len ip <> 4%nat -> net.len ip <> 16%nat ->
      outcome (namecheap.Update n ctx client ip) tr <> Ok newIP)
  /\ (forall (d : digitalocean.digitalOcean) ctx client (ip : net.IP) tr newIP,
        net.len ip <> 4%nat -> net.len ip <> 16%nat ->
        outcome (digitalocean.Update d ctx client ip) tr <> Ok newIP).
Proof.
  intros Hparse. split.
  - intros n ctx client ip tr newIP Hnil H4 H16 Hok. walk; try done.
    all: match goal with
         | H : net.Equal ?i (net_ParseIP ?s) = true |- _ =>
             destruct (Hparse s) as [?|Hlen]; [done|];
             destruct (net_Equal_odd_length i _ Hlen H4 H16); congruence
         end.
  - intros d ctx client ip tr newIP H4 H16 Hok. walk.
    all: match goal with
         | H : net.Equal (net_ParseIP ?s) ?i = true |- _ =>
             destruct (Hparse s) as [?|Hlen]; [done|];
             destruct (net_Equal_odd_length i _ Hlen H4 H16); congruence
         end.
Qed.

(** X17: an adapter that [New] returns holds the secret and the flag of
    the configuration as decoded, and the matcher it was given: nothing is
    defaulted or rewritten on the way. *)
Theorem New_keeps_the_configuration :
  (forall data domain host ipVersion matcher n,
      namecheap.New data domain host ipVersion matcher = Ok n ->
      exists s,
        namecheap.json_Unmarshal data = Ok s
        /\ namecheap.password n = namecheap.Password s
        /\ namecheap.useProviderIP n = namecheap.UseProviderIP s
        /\ namecheap.matcher n = matcher)
  /\ (forall data domain host ipVersion d,
        digitalocean.New data domain host ipVersion = Ok d ->
        exists s,
          digitalocean.json_Unmarshal data = Ok s
          /\ digitalocean.token d = digitalocean.Token s).
Proof.
  split.
  - intros data domain host ipVersion matcher n.
    unfold namecheap.New.
    repeat case_match; intros [= <-]; eauto.
  - intros data domain host ipVersion d.
    unfold digitalocean.New.
    repeat case_match; intros [= <-]; eauto.
Qed.

End adapters_further.

(** ** Further scenarios, on the concrete environment *)

Section scenarios_further.
Import fixture fixture_more.

(** X1 at the scenario of the single-call adapter: one request, which
    carries the password, and none under a nil context. *)
Lemma namecheap_Update_one_request_witness :
  performs (namecheap.Update (namecheap_www false) http.nilContext
              (always 200 (xml_ok "203.0.113.5")) ip_203_0_113_5) [] []
  /\ exists req,
       performs (namecheap.Update (namecheap_www false) http.Background
                   (always 200 (xml_ok "203.0.113.5")) ip_203_0_113_5) []
         [(req, Ok {| http.StatusCode := 200;
                      http.RespBody := xml_ok "203.0.113.5" |})]
       /\ url.RawQuery (http.URL req) !! "password"
          = Some ["Aa1-aaaaaaaaaaaaaaaa"]
       /\ url.RawQuery (http.URL req) !! "token" = None.
Proof.
  split.
  - exact (proj1 (namecheap_Update_one_request (namecheap_www false)
                    http.nilContext (always 200 (xml_ok "203.0.113.5"))
                    ip_203_0_113_5 []) eq_refl).
  - destruct (proj2 (namecheap_Update_one_request (namecheap_www false)
                       http.Background (always 200 (xml_ok "203.0.113.5"))
                       ip_203_0_113_5 []) ltac:(discriminate))
      as (req & Hex & _ & _ & _ & _ & _ & _ & _ & _ & Hpw & Hother).
    exists req. split_and!; [exact Hex | exact Hpw | ].
    apply Hother; discriminate.
Defined.

(** X2 with an unreachable vendor. *)
Lemma namecheap_transport_error_passed_on_witness :
  outcome (namecheap.Update (namecheap_www false) http.Background unreachable
             ip_203_0_113_5) []
  = Error (Foreign "dial tcp: i/o timeout").
Proof.
  eassert (Hex : performs
                   (namecheap.Update (namecheap_www false) http.Background
                      unreachable ip_203_0_113_5) []
                   [(_, Error _)]) by reflexivity.
  exact (namecheap_transport_error_passed_on _ _ _ _ _ _ _ Hex).
Defined.

(** X3 with a vendor that answers 200 and a body that is not the
    document expected. *)
Lemma namecheap_undecodable_body_witness :
  outcome (namecheap.Update (namecheap_www false) http.Background
             (always 200 "<html>") ip_203_0_113_5) []
  = Error (Wrap ErrUnmarshalResponse "EOF").
Proof.
  eassert (Hex : performs
                   (namecheap.Update (namecheap_www false) http.Background
                      (always 200 "<html>") ip_203_0_113_5) []
                   [(_, Ok _)]) by reflexivity.
  exact (namecheap_undecodable_body _ _ _ _ _ _ _ "EOF" Hex eq_refl eq_refl).
Defined.

(** X4 with a vendor that reports a text that is not an address, for an
    IP passed and for a nil IP. *)
Lemma namecheap_malformed_ip_witness :
  outcome (namecheap.Update (C := namecheap_codec_more) (namecheap_www false)
             http.Background (always 200 (xml_ok "not-an-ip"))
             ip_203_0_113_5) []
  = Error (Wrap ErrIPReceivedMalformed "not-an-ip")
  /\ outcome (namecheap.Update (C := namecheap_codec_more)
                (namecheap_www false) http.Background
                (always 200 (xml_ok "not-an-ip")) None) []
     = Error (Wrap ErrIPReceivedMalformed "not-an-ip").
Proof.
  split.
  - eassert (Hex : performs
                     (namecheap.Update (C := namecheap_codec_more)
                        (namecheap_www false) http.Background
                        (always 200 (xml_ok "not-an-ip")) ip_203_0_113_5) []
                     [(_, Ok _)]) by reflexivity.
    exact (namecheap_malformed_ip (C := namecheap_codec_more) _ _ _ _ _ _ _
             {| namecheap.Errors_Error := ""; namecheap.IP := "not-an-ip" |}
             Hex eq_refl eq_refl eq_refl eq_refl).
  - eassert (Hex : performs
                     (namecheap.Update (C := namecheap_codec_more)
                        (namecheap_www false) http.Background
                        (always 200 (xml_ok "not-an-ip")) None) []
                     [(_, Ok _)]) by reflexivity.
    exact (namecheap_malformed_ip (C := namecheap_codec_more) _ _ _ _ _ _ _
             {| namecheap.Errors_Error := ""; namecheap.IP := "not-an-ip" |}
             Hex eq_refl eq_refl eq_refl eq_refl).
Defined.

(** X5 at the mismatch of the scenario: the error matches
    [ErrIPReceivedMismatch], one of the five. *)
Lemma namecheap_error_kinds_witness :
  outcome (namecheap.Update (namecheap_www false) http.Background
             (always 200 (xml_ok "198.51.100.1")) ip_203_0_113_5) []
  = Error (Wrap ErrIPReceivedMismatch "198.51.100.1")
  /\ In ErrIPReceivedMismatch
       [ErrBadHTTPStatus; ErrUnmarshalResponse; ErrUnsuccessfulResponse;
        ErrIPReceivedMalformed; ErrIPReceivedMismatch].
Proof.
  split; [reflexivity|].
  exact (proj2 (namecheap_error_kinds (namecheap_www false) http.Background
                  (always 200 (xml_ok "198.51.100.1")) ip_203_0_113_5 []
                  (Wrap ErrIPReceivedMismatch "198.51.100.1") eq_refl)
           ErrIPReceivedMismatch eq_refl).
Defined.

(** X6 at the scenario, with 203.0.113.5 passed in its 4-byte form. *)
Lemma namecheap_accepts_4_byte_form_witness :
  outcome (namecheap.Update (namecheap_www false) http.Background
             (always 200 (xml_ok "203.0.113.5")) ip4_203_0_113_5) []
  = Ok ip_203_0_113_5
  /\ ip_203_0_113_5 <> ip4_203_0_113_5.
Proof.
  eassert (Hex : performs
                   (namecheap.Update (namecheap_www false) http.Background
                      (always 200 (xml_ok "203.0.113.5")) ip4_203_0_113_5) []
                   [(_, Ok _)]) by reflexivity.
  exact (namecheap_accepts_4_byte_form _ _ _ xcb x00 x71 x05 _ _ _
           {| namecheap.Errors_Error := ""; namecheap.IP := "203.0.113.5" |}
           Hex eq_refl eq_refl eq_refl eq_refl).
Defined.

(** The two-step scenario, as a computation. *)
Local Abbreviation api_update lookup mutation ip :=
  (digitalocean.Update digitalocean_api http.Background
     (vendor lookup mutation) ip).

(** X7 at the scenario: at most two exchanges, all with the host of the
    vendor's API. *)
Lemma digitalocean_Update_requests_witness :
  Nat.le
    (length (snd (api_update (200, records_body id_42)
                    (200, record_body "198.51.100.9") ip_198_51_100_9 [])))
    2
  /\ Forall (fun x => url.Host (http.URL (fst x)) = "api.digitalocean.com")
       (snd (api_update (200, records_body id_42)
               (200, record_body "198.51.100.9") ip_198_51_100_9 [])).
Proof.
  destruct (digitalocean_Update_requests digitalocean_api http.Background
              (vendor (200, records_body id_42)
                      (200, record_body "198.51.100.9"))
              ip_198_51_100_9 [] _ eq_refl) as [Hlen Hall].
  split; [exact Hlen|].
  eapply Forall_impl; [exact Hall|].
  by intros x (_ & _ & Hhost & _).
Defined.

(** X8 with a lookup that finds the records 42 and 7: the PUT addresses
    record 42. *)
Lemma digitalocean_mutation_targets_first_record_witness :
  exists lookup mutation,
    performs (digitalocean.Update (C := digitalocean_codec_more)
                digitalocean_api http.Background
                (vendor (200, records_body (id_42 ++ "," ++ id_7))
                        (200, record_body "198.51.100.9"))
                ip_198_51_100_9) [] [lookup; mutation]
    /\ http.Method (fst mutation) = "PUT"
    /\ url.Path (http.URL (fst mutation))
       = "/v2/domains/example.org/records/42".
Proof.
  eassert (Hex : performs
                   (digitalocean.Update (C := digitalocean_codec_more)
                      digitalocean_api http.Background
                      (vendor (200, records_body (id_42 ++ "," ++ id_7))
                              (200, record_body "198.51.100.9"))
                      ip_198_51_100_9) []
                   [_; _]) by reflexivity.
  destruct (digitalocean_mutation_targets_first_record
              (C := digitalocean_codec_more) _ _ _ _ _ _ _ Hex)
    as (resp & res & first & rest & Hans & _ & Hdec & Hrec & _ & Hput & Hpath).
  eexists _, _. split_and!; [exact Hex | exact Hput | ].
  rewrite Hpath. injection Hans as <-.
  injection Hdec as <-. by injection Hrec as <- _.
Defined.

(** X9 at the scenario: 198.51.100.9 has a 4-byte form, the lookup asks
    for the type A. *)
Lemma digitalocean_record_type_witness :
  Forall (fun x =>
            http.Method (fst x) = http.MethodGet ->
            url.RawQuery (http.URL (fst x)) !! "type" = Some ["A"])
    (snd (api_update (200, records_body id_42)
            (200, record_body "198.51.100.9") ip_198_51_100_9 [])).
Proof.
  exact (proj1 (digitalocean_record_type digitalocean_api http.Background
                  (vendor (200, records_body id_42)
                          (200, record_body "198.51.100.9"))
                  ip_198_51_100_9 [] _ eq_refl)).
Defined.

(** X10 with a vendor that is unreachable, and with one that is
    unreachable once the lookup is answered. *)
Lemma digitalocean_transport_errors_witness :
  outcome (digitalocean.Update digitalocean_api http.Background unreachable
             ip_198_51_100_9) []
  = Error (Prefixed ErrGetRecordID (Foreign "dial tcp: i/o timeout"))
  /\ outcome (digitalocean.Update digitalocean_api http.Background
                (lookup_only 200 (records_body id_42)) ip_198_51_100_9) []
     = Error (Foreign "dial tcp: i/o timeout").
Proof.
  split.
  - eassert (Hex : performs
                     (digitalocean.Update digitalocean_api http.Background
                        unreachable ip_198_51_100_9) []
                     [(_, Error _)]) by reflexivity.
    exact (proj1 (digitalocean_transport_errors _ _ _ _ _ _ _) Hex).
  - eassert (Hex : performs
                     (digitalocean.Update digitalocean_api http.Background
                        (lookup_only 200 (records_body id_42))
                        ip_198_51_100_9) []
                     [_; (_, Error _)]) by reflexivity.
    exact (proj2 (digitalocean_transport_errors _ _ _ _ _ _ _) _ Hex).
Defined.

(** X11 with an encoder that fails: the lookup is the only exchange. *)
Lemma digitalocean_encode_failure_witness :
  outcome (digitalocean.Update (C := digitalocean_codec_no_encoder)
             digitalocean_api http.Background
             (vendor (200, records_body id_42)
                     (200, record_body "198.51.100.9"))
             ip_198_51_100_9) []
  = Error (Wrap ErrRequestEncode "json: unsupported value")
  /\ map (fun x => http.Method (fst x))
       (snd (digitalocean.Update (C := digitalocean_codec_no_encoder)
               digitalocean_api http.Background
               (vendor (200, records_body id_42)
                       (200, record_body "198.51.100.9"))
               ip_198_51_100_9 []))
     = [http.MethodGet].
Proof.
  pose (lookup := digitalocean.getRecordID (C := digitalocean_codec_no_encoder)
                    digitalocean_api http.Background constants.A
                    (vendor (200, records_body id_42)
                            (200, record_body "198.51.100.9")) []).
  assert (Hg : lookup = (Ok 42, snd lookup)) by reflexivity.
  pose proof (digitalocean_encode_failure (C := digitalocean_codec_no_encoder)
                digitalocean_api http.Background
                (vendor (200, records_body id_42)
                        (200, record_body "198.51.100.9"))
                ip_198_51_100_9 [] _ 42 "json: unsupported value" Hg eq_refl)
    as Hup.
  unfold outcome. rewrite Hup. split; reflexivity.
Defined.

(** X12 at the scenario: the chain of conditions holds, and [Update]
    returns 198.51.100.9. *)
Lemma digitalocean_success_exactly_witness :
  outcome (api_update (200, records_body id_42)
             (200, record_body "198.51.100.9") ip_198_51_100_9) []
  = Ok ip_198_51_100_9.
Proof.
  apply (proj2 (digitalocean_success_exactly digitalocean_api http.Background
                  (vendor (200, records_body id_42)
                          (200, record_body "198.51.100.9"))
                  ip_198_51_100_9 ip_198_51_100_9 [])).
  eexists _, _, {| digitalocean.DomainRecords := [ {| digitalocean.ID := 42 |} ] |},
    _, _, _, _, {| digitalocean.DomainRecord_Data := "198.51.100.9" |}, _.
  split_and!; try reflexivity; discriminate.
Defined.

(** X13 with a mutation answered by a body that does not decode, and by
    one whose data is not an address. *)
Lemma digitalocean_mutation_answer_failures_witness :
  outcome (api_update (200, records_body id_42) (200, "<html>")
             ip_198_51_100_9) []
  = Error (Wrap ErrUnmarshalResponse "EOF")
  /\ outcome (digitalocean.Update (C := digitalocean_codec_more)
                digitalocean_api http.Background
                (vendor (200, records_body id_42)
                        (200, record_body "not-an-ip"))
                ip_198_51_100_9) []
     = Error (Errorf "IP address received %q is malformed" ["not-an-ip"]).
Proof.
  split.
  - eassert (Hex : performs
                     (api_update (200, records_body id_42) (200, "<html>")
                        ip_198_51_100_9) []
                     [_; (_, Ok _)]) by reflexivity.
    exact (proj1 (digitalocean_mutation_answer_failures _ _ _ _ _ _ _ _
                    Hex eq_refl) "EOF" eq_refl).
  - eassert (Hex : performs
                     (digitalocean.Update (C := digitalocean_codec_more)
                        digitalocean_api http.Background
                        (vendor (200, records_body id_42)
                                (200, record_body "not-an-ip"))
                        ip_198_51_100_9) []
                     [_; (_, Ok _)]) by reflexivity.
    exact (proj1 (proj2 (digitalocean_mutation_answer_failures
                           (C := digitalocean_codec_more) _ _ _ _ _ _ _ _
                           Hex eq_refl))
             {| digitalocean.DomainRecord_Data := "not-an-ip" |}
             eq_refl eq_refl).
Defined.

(** X14 at the lookup of the scenario. *)
Lemma getRecordID_success_exactly_witness :
  outcome (digitalocean.getRecordID digitalocean_api http.Background
             constants.A (always 200 (records_body id_42))) []
  = Ok 42.
Proof.
  apply (proj2 (getRecordID_success_exactly digitalocean_api http.Background
                  constants.A (always 200 (records_body id_42)) [] 42)).
  split; [discriminate|].
  eexists _, _, {| digitalocean.DomainRecords := [ {| digitalocean.ID := 42 |} ] |}, _.
  split_and!; reflexivity.
Defined.

(** X15 at a lookup that finds no record: the error matches [ErrNotFound]
    and not [ErrGetRecordID]. *)
Lemma digitalocean_error_kinds_witness :
  In ErrNotFound
    [ErrBadHTTPStatus; ErrUnmarshalResponse; ErrNotFound;
     ErrDomainIDNotFound; ErrRequestEncode]
  /\ Is (Prefixed ErrGetRecordID (Sentinel ErrNotFound)) ErrGetRecordID
     = false.
Proof.
  split; [|reflexivity].
  exact (digitalocean_error_kinds digitalocean_api http.Background
           (vendor (200, records_body "") (200, record_body "198.51.100.9"))
           ip_198_51_100_9 [] (Prefixed ErrGetRecordID (Sentinel ErrNotFound))
           ErrNotFound eq_refl eq_refl).
Defined.

(** The table of [fixture] returns nil or an address of 16 bytes. *)
Lemma fixture_ParseIP_length (s : string) :
  fixture.ParseIP s = None \/ net.len (fixture.ParseIP s) = 16%nat.
Proof.
  unfold fixture.ParseIP. repeat case_match; auto.
Qed.

(** X16 at the scenario of the two-step adapter with a nil IP, and at the
    scenario of the single-call adapter with an IP of three bytes. *)
Lemma update_rejects_odd_length_ip_witness :
  outcome (api_update (200, records_body id_42)
             (200, record_body "198.51.100.9") None) []
  <> Ok ip_198_51_100_9
  /\ outcome (namecheap.Update (namecheap_www false) http.Background
                (always 200 (xml_ok "203.0.113.5"))
                (Some [xcb; x00; x71])) []
     <> Ok ip_203_0_113_5.
Proof.
  destruct (update_rejects_odd_length_ip (E := env) fixture_ParseIP_length)
    as [Hn Hd].
  split.
  - apply Hd; by compute.
  - apply Hn; [discriminate | by compute | by compute].
Defined.

(** X17 at the two configurations of the scenarios. *)
Lemma New_keeps_the_configuration_witness :
  (exists s,
      namecheap.json_Unmarshal namecheap_config_provider_ip = Ok s
      /\ namecheap.password (namecheap_www true) = namecheap.Password s
      /\ namecheap.useProviderIP (namecheap_www true)
         = namecheap.UseProviderIP s
      /\ namecheap.matcher (namecheap_www true) = matcher)
  /\ (exists s,
        digitalocean.json_Unmarshal digitalocean_config = Ok s
        /\ digitalocean.token digitalocean_api = digitalocean.Token s).
Proof.
  destruct New_keeps_the_configuration as [Hn Hd].
  split.
  - exact (Hn namecheap_config_provider_ip "example.com" "www" ipversion.IP4
              matcher (namecheap_www true) eq_refl).
  - exact (Hd digitalocean_config "example.org" "api" ipversion.IP4
              digitalocean_api eq_refl).
Defined.

End scenarios_further.
